(** * MoenchDetectorControl: the Tango device of moench_tango_control_server.py

    A shallow embedding of the attribute writers, readers and commands of the
    [MoenchDetectorControl] Tango device, and the properties of its input
    validation, its no-op writers and its error handling.

    Conventions of the embedding.
    - A Python [str] is a Rocq [string]: a sequence of code points below 256
      (PyTango decodes a DevString as Latin-1).  On that range the
      regular-expression class [\d] is exactly the ASCII digits.
    - Python values that reach a writer are dynamically typed: [pyval].
    - The vendor detector object ([self.device], a [slsdet.Moench]) is a store
      of named properties; the device server, its Tango state, its log
      streams and the calls it makes on its collaborators form a [World].
    - A method is a function [World -> outcome A * World]: an exception
      leaves the effects performed before it in place, as in Python. *)

From Stdlib Require Import String Ascii List ZArith Bool Arith Lia.
Import ListNotations.

Local Open Scope list_scope.
Local Open Scope string_scope.

(** ** Python values and exceptions *)

(** [slsdet.timingMode]: the source names two members; the vendor enum has
    others, kept apart by their integer value. *)
Inductive timingMode : Type :=
| AUTO_TIMING
| TRIGGER_EXPOSURE
| timingMode_other (n : nat).

Inductive pyval : Type :=
| PyNone
| PyBool (b : bool)
| PyInt (n : Z)
| PyFloat (bits : Z)              (* a binary64, never inspected by the server *)
| PyStr (s : string)
| PyBytes (s : string)
| VTimingMode (t : timingMode)
| VDetectorSettings (n : Z)       (* slsdet.detectorSettings(n) *)
| VFrameDiscardPolicy (n : Z)     (* slsdet.frameDiscardPolicy(n) *)
| VIpAddr (text : string)         (* _slsdet.IpAddr(text) *)
| VPosixPath (p : string).

(** The exception classes the server can meet.  [RuntimeError],
    [TypeError] and [KeyError] stand for an instance of the class or of
    one of its subclasses; [OtherException] for an instance of a class
    under [Exception] that derives from none of the three.
    [KeyboardInterrupt] and [SystemExit] derive from [BaseException]
    only. *)
Inductive exn : Type :=
| RuntimeError (msg : string)
| TypeError (msg : string)
| KeyError (key : string)
| OtherException (cls msg : string)
| KeyboardInterrupt
| SystemExit.

Definition isinstance_RuntimeError (e : exn) : bool :=
  match e with RuntimeError _ => true | _ => false end.

Definition isinstance_TypeError (e : exn) : bool :=
  match e with TypeError _ => true | _ => false end.

Definition isinstance_Exception (e : exn) : bool :=
  match e with KeyboardInterrupt | SystemExit => false | _ => true end.

(** [str(e)] of an exception raised with one message argument. *)
Definition exn_str (e : exn) : string :=
  match e with
  | RuntimeError m | TypeError m | OtherException _ m => m
  | KeyError k => k
  | KeyboardInterrupt | SystemExit => EmptyString
  end.

Inductive outcome (A : Type) : Type :=
| Return (a : A)
| Raise (e : exn).
Arguments Return {A} a.
Arguments Raise {A} e.

(** ** The detector object, Tango, and the world *)

Module Moench.
(** The properties of [slsdet.Moench] the server touches. *)
Inductive prop : Type :=
| exptime | timing | triggers | filename | fpath | frames | fwrite
| highvoltage | period | samples | settings | rx_zmqip | rx_zmqport
| rx_discardpolicy | rx_missingpackets | rx_hostname | rx_tcpport
| rx_status | rx_zmqstream | rx_version | firmwareversion | status.

Definition index (p : prop) : nat :=
  match p with
  | exptime => 0 | timing => 1 | triggers => 2 | filename => 3 | fpath => 4
  | frames => 5 | fwrite => 6 | highvoltage => 7 | period => 8
  | samples => 9 | settings => 10 | rx_zmqip => 11 | rx_zmqport => 12
  | rx_discardpolicy => 13 | rx_missingpackets => 14 | rx_hostname => 15
  | rx_tcpport => 16 | rx_status => 17 | rx_zmqstream => 18
  | rx_version => 19 | firmwareversion => 20 | status => 21
  end.

Definition eqb (p q : prop) : bool := Nat.eqb (index p) (index q).

(** The state behind the handle: one value per property. *)
Definition t : Type := prop -> pyval.

Definition get (d : t) (p : prop) : pyval := d p.

Definition set (d : t) (p : prop) (v : pyval) : t :=
  fun q => if eqb q p then v else d q.
End Moench.

(** [tango.DevState], the members the server uses. *)
Inductive DevState : Type := UNKNOWN | INIT | ON | FAULT.

Inductive level : Type := INFO | ERROR.

(** A call the server makes on one of its collaborators. *)
Inductive event : Type :=
| Ev_get (p : Moench.prop)            (* self.device.p read *)
| Ev_set (p : Moench.prop)            (* self.device.p = ... *)
| Ev_command (name : string)          (* self.device.name() *)
| Ev_IpAddr (text : string)           (* IpAddr(text) *)
| Ev_Moench                           (* Moench() *)
| Ev_init_pc (virtual : bool)         (* self.pc_util.init_pc(virtual=...) *)
| Ev_deactivate_pc (virtual : bool).  (* self.pc_util.deactivate_pc(...) *)

Record World : Type := mkWorld {
  device : Moench.t;                  (* the detector behind self.device *)
  VIRTUAL : bool;                     (* self.VIRTUAL *)
  dev_state : DevState;               (* the Tango device state *)
  stream : list (level * string);     (* info_stream / error_stream output *)
  calls : list event                  (* calls on the collaborators, oldest first *)
}.

Definition with_device (d : Moench.t) (w : World) : World :=
  mkWorld d (VIRTUAL w) (dev_state w) (stream w) (calls w).

Definition with_VIRTUAL (b : bool) (w : World) : World :=
  mkWorld (device w) b (dev_state w) (stream w) (calls w).

Definition with_dev_state (s : DevState) (w : World) : World :=
  mkWorld (device w) (VIRTUAL w) s (stream w) (calls w).

Definition logged (l : level) (msg : string) (w : World) : World :=
  mkWorld (device w) (VIRTUAL w) (dev_state w) (stream w ++ [(l, msg)])%list (calls w).

Definition called (e : event) (w : World) : World :=
  mkWorld (device w) (VIRTUAL w) (dev_state w) (stream w) (calls w ++ [e])%list.

(** The world after the assignment [self.device.p = v]. *)
Definition assigned (p : Moench.prop) (v : pyval) (w : World) : World :=
  with_device (Moench.set (device w) p v) (called (Ev_set p) w).

(** ** Methods: state and exceptions *)

Definition M (A : Type) : Type := World -> outcome A * World.

Definition ret {A} (a : A) : M A := fun w => (Return a, w).

Definition raise {A} (e : exn) : M A := fun w => (Raise e, w).

Definition bind {A B} (m : M A) (k : A -> M B) : M B :=
  fun w =>
    match m w with
    | (Return a, w') => k a w'
    | (Raise e, w') => (Raise e, w')
    end.

Notation "x <- m ;; k" := (bind m (fun x => k))
  (at level 61, m at next level, right associativity).
Notation "m ;;; k" := (bind m (fun _ => k))
  (at level 61, right associativity).

(** [try: body / except C as e: handler e], with [catches] the test
    [isinstance(e, C)]. *)
Definition try_except {A} (body : M A) (catches : exn -> bool)
    (handler : exn -> M A) : M A :=
  fun w =>
    match body w with
    | (Raise e, w') => if catches e then handler e w' else (Raise e, w')
    | r => r
    end.

Definition info_stream (msg : string) : M unit :=
  fun w => (Return tt, logged INFO msg w).

Definition error_stream (msg : string) : M unit :=
  fun w => (Return tt, logged ERROR msg w).

Definition set_state (s : DevState) : M unit :=
  fun w => (Return tt, with_dev_state s w).

(** [self.device.p] and [self.device.p = v], where the vendor object stores
    the value. *)
Definition getattr (p : Moench.prop) : M pyval :=
  fun w => (Return (Moench.get (device w) p), called (Ev_get p) w).

Definition setattr (p : Moench.prop) (v : pyval) : M unit :=
  fun w => (Return tt, assigned p v w).

Definition device_command (name : string) : M unit :=
  fun w => (Return tt, called (Ev_command name) w).

(** ** The [re] module, as far as the server uses it *)

Module re.
Inductive category : Type :=
| CATEGORY_DIGIT                      (* \d *)
| CATEGORY_LITERAL (c : ascii).

(** The nodes [sre_parse] produces for the server's pattern. *)
Inductive node : Type :=
| AT_BEGINNING                        (* ^ *)
| AT_END                              (* $ without re.MULTILINE *)
| LITERAL (c : ascii)
| MAX_REPEAT (lo hi : nat) (cat : category).   (* x{lo,hi}, greedy *)

Definition pattern : Type := list node.

Definition is_digit (c : ascii) : bool :=
  (48 <=? nat_of_ascii c)%nat && (nat_of_ascii c <=? 57)%nat.

Definition in_category (cat : category) (c : ascii) : bool :=
  match cat with
  | CATEGORY_DIGIT => is_digit c
  | CATEGORY_LITERAL c' => Ascii.eqb c' c
  end.

Definition newline : ascii := ascii_of_nat 10.

(** [$] holds at the end of the string and just before a newline that is
    the last character of the string. *)
Definition at_end (rest : string) : bool :=
  match rest with
  | EmptyString => true
  | String c EmptyString => Ascii.eqb c newline
  | _ => false
  end.

(** Greedy bounded repetition with backtracking: take one more character
    of the category when allowed, otherwise (or when the rest of the
    pattern then fails) go on with the rest of the pattern [k], provided
    the lower bound is met. *)
Fixpoint match_repeat (cat : category) (k : nat -> string -> bool)
    (lo hi pos : nat) (s : string) {struct hi} : bool :=
  match hi with
  | O => (lo =? 0)%nat && k pos s
  | S hi' =>
      match s with
      | String c s' =>
          (in_category cat c && match_repeat cat k (pred lo) hi' (S pos) s')
          || ((lo =? 0)%nat && k pos s)
      | EmptyString => (lo =? 0)%nat && k pos s
      end
  end.

(** Matching the nodes from position [pos], with [s] the rest of the
    subject.  A pattern that is used up has matched: [re.match] does not
    ask for the end of the string. *)
Fixpoint sre_match (p : pattern) (pos : nat) (s : string) {struct p} : bool :=
  match p with
  | [] => true
  | AT_BEGINNING :: p' => (pos =? 0)%nat && sre_match p' pos s
  | AT_END :: p' => at_end s && sre_match p' pos s
  | LITERAL c :: p' =>
      match s with
      | String c' s' => Ascii.eqb c c' && sre_match p' (S pos) s'
      | EmptyString => false
      end
  | MAX_REPEAT lo hi cat :: p' => match_repeat cat (sre_match p') lo hi pos s
  end.

(** [bool(re.match(p, value))] for a [str] pattern: a subject that is not
    a [str] raises [TypeError]. *)
Definition match_ (p : pattern) (value : pyval) : M bool :=
  match value with
  | PyStr s => ret (sre_match p 0 s)
  | PyBytes _ => raise (TypeError "cannot use a string pattern on a bytes-like object")
  | _ => raise (TypeError "expected string or bytes-like object")
  end.
End re.

(** [_slsdet.IpAddr(value)]: the vendor constructor keeps the text it is
    given; it is called with a [str]. *)
Definition IpAddr (value : pyval) : M pyval :=
  match value with
  | PyStr s => fun w => (Return (VIpAddr s), called (Ev_IpAddr s) w)
  | _ => raise (TypeError "IpAddr(): incompatible constructor arguments")
  end.

(** r"^\d{1,3}\.\d{1,3}\.\d{1,3}\.\d{1,3}$" *)
Definition zmqip_pattern : re.pattern :=
  [ re.AT_BEGINNING;
    re.MAX_REPEAT 1 3 re.CATEGORY_DIGIT; re.LITERAL ".";
    re.MAX_REPEAT 1 3 re.CATEGORY_DIGIT; re.LITERAL ".";
    re.MAX_REPEAT 1 3 re.CATEGORY_DIGIT; re.LITERAL ".";
    re.MAX_REPEAT 1 3 re.CATEGORY_DIGIT;
    re.AT_END ].

(** ** Python built-ins the writers use *)

(** [str.lower()] on code points below 256: the ASCII capitals and the
    Latin-1 capitals (0xC0..0xDE without the multiplication sign 0xD7) move
    up by 32. *)
Definition lower_char (c : ascii) : ascii :=
  let n := nat_of_ascii c in
  if ((65 <=? n) && (n <=? 90))%nat then ascii_of_nat (n + 32)
  else if ((192 <=? n) && (n <=? 222) && negb (n =? 215))%nat then ascii_of_nat (n + 32)
  else c.

Fixpoint lower (s : string) : string :=
  match s with
  | EmptyString => EmptyString
  | String c s' => String (lower_char c) (lower s')
  end.

(** [type(value) == str] *)
Definition type_is_str (value : pyval) : bool :=
  match value with PyStr _ => true | _ => false end.

(** [value.lower()], called on a [str] only. *)
Definition str_lower (value : pyval) : string :=
  match value with PyStr s => lower s | _ => EmptyString end.

(** The double-quote character, for the messages that contain it. *)
Definition dquote : string := String (ascii_of_nat 34) EmptyString.

(** Equality of two members of [timingMode]. *)
Definition timingMode_eqb (a b : timingMode) : bool :=
  match a, b with
  | AUTO_TIMING, AUTO_TIMING => true
  | TRIGGER_EXPOSURE, TRIGGER_EXPOSURE => true
  | timingMode_other n, timingMode_other m => Nat.eqb n m
  | _, _ => false
  end.

(** [value == t] for a member [t] of [timingMode]: only that member is
    equal to it. *)
Definition eq_timingMode (value : pyval) (t : timingMode) : bool :=
  match value with VTimingMode t' => timingMode_eqb t' t | _ => false end.

(** A dict literal with [str] keys and [int] values, in source order. *)
Definition dict : Type := list (string * Z).

(** [list(d.keys())] *)
Definition keys (d : dict) : list string := map fst d.

(** [value in l] for a list of [str]: only an equal [str] is a member. *)
Definition py_in (value : pyval) (l : list string) : bool :=
  match value with
  | PyStr s => existsb (String.eqb s) l
  | _ => false
  end.

(** The value stored under key [k], if any. *)
Fixpoint lookup (d : dict) (k : string) : option Z :=
  match d with
  | [] => None
  | (k', v) :: d' => if String.eqb k' k then Some v else lookup d' k
  end.

(** [d[value]] *)
Definition getitem (d : dict) (value : pyval) : M Z :=
  match value with
  | PyStr s =>
      match lookup d s with
      | Some v => ret v
      | None => raise (KeyError s)
      end
  | _ => raise (KeyError EmptyString)
  end.

(** The vendor constructors: each keeps its argument. *)
Definition detectorSettings (n : Z) : pyval := VDetectorSettings n.

Definition frameDiscardPolicy (n : Z) : pyval := VFrameDiscardPolicy n.

Definition PosixPath (value : pyval) : M pyval :=
  match value with
  | PyStr s => ret (VPosixPath s)
  | VPosixPath p => ret (VPosixPath p)
  | _ => raise (TypeError "expected str, bytes or os.PathLike object")
  end.

(** ** Attribute declarations *)

Inductive AttrWriteType : Type := READ | READ_WRITE.

(** The keyword arguments of [tango.server.attribute] with integer bounds. *)
Record attribute : Type := mk_attribute {
  label : string;
  dtype : string;
  unit_ : option string;
  min_value : option Z;
  max_value : option Z;
  min_warning : option Z;
  max_warning : option Z;
  access : AttrWriteType;
  doc : option string
}.

Definition highvoltage : attribute :=
  {| label := "high voltage on sensor"; dtype := "int"; unit_ := Some "V";
     min_value := Some 60%Z; max_value := Some 200%Z;
     min_warning := Some 70%Z; max_warning := Some 170%Z;
     access := READ_WRITE; doc := None |}.

Definition rx_discardpolicy : attribute :=
  {| label := "discard policy"; dtype := "str"; unit_ := None;
     min_value := None; max_value := None; min_warning := None; max_warning := None;
     access := READ_WRITE;
     doc := Some "discard policy of corrupted frames [NO_DISCARD/DISCARD_EMPTY/DISCARD_PARTIAL]" |}.

Definition rx_missingpackets : attribute :=
  {| label := "missed packets"; dtype := "int"; unit_ := None;
     min_value := None; max_value := None; min_warning := None; max_warning := None;
     access := READ;
     doc := Some "number of missing packets for each port in receiver" |}.

Definition rx_status : attribute :=
  {| label := "receiver status"; dtype := "str"; unit_ := None;
     min_value := None; max_value := None; min_warning := None; max_warning := None;
     access := READ; doc := None |}.

Definition rx_version : attribute :=
  {| label := "rec. version"; dtype := "str"; unit_ := None;
     min_value := None; max_value := None; min_warning := None; max_warning := None;
     access := READ;
     doc := Some "version of receiver formatatted as [0xYYMMDD]" |}.

Definition firmware_version : attribute :=
  {| label := "det. version"; dtype := "str"; unit_ := None;
     min_value := None; max_value := None; min_warning := None; max_warning := None;
     access := READ;
     doc := Some "version of detector software" |}.

(** ** The methods of MoenchDetectorControl *)

Definition nl : string := String re.newline EmptyString.

Definition write_exposure (value : pyval) : M unit := setattr Moench.exptime value.

Definition read_timing_mode : M pyval :=
  t <- getattr Moench.timing ;;
  if eq_timingMode t AUTO_TIMING then ret (PyStr "AUTO")
  else
    t' <- getattr Moench.timing ;;
    if eq_timingMode t' TRIGGER_EXPOSURE then ret (PyStr "EXT")
    else
      info_stream "The timing mode is not assigned correctly." ;;;
      ret PyNone.

Definition write_timing_mode (value : pyval) : M unit :=
  if type_is_str value then
    if String.eqb (str_lower value) "auto" then
      info_stream "Setting auto timing mode" ;;;
      setattr Moench.timing (VTimingMode AUTO_TIMING)
    else if String.eqb (str_lower value) "ext" then
      info_stream "Setting external timing mode" ;;;
      setattr Moench.timing (VTimingMode TRIGGER_EXPOSURE)
    else ret tt
  else
    info_stream ("Timing mode should be " ++ dquote ++ "AUTO/EXT" ++ dquote ++ " string").

Definition write_triggers (value : pyval) : M unit := setattr Moench.triggers value.

Definition write_filename (value : pyval) : M unit := setattr Moench.filename value.

Definition write_filepath (value : pyval) : M unit :=
  try_except
    (p <- PosixPath value ;; setattr Moench.fpath p)
    isinstance_TypeError
    (fun _ => error_stream "not valid filepath").

Definition write_frames (value : pyval) : M unit := setattr Moench.frames value.

Definition write_filewrite (value : pyval) : M unit := setattr Moench.fwrite value.

Definition write_period (value : pyval) : M unit := setattr Moench.period value.

Definition write_samples (value : pyval) : M unit := setattr Moench.samples value.

Definition settings_dict : dict :=
  [ ("G1_HIGHGAIN", 13); ("G1_LOWGAIN", 14);
    ("G2_HIGHCAP_HIGHGAIN", 15); ("G2_HIGHCAP_LOWGAIN", 16);
    ("G2_LOWCAP_HIGHGAIN", 17); ("G2_LOWCAP_LOWGAIN", 18);
    ("G4_HIGHGAIN", 19); ("G4_LOWGAIN", 20) ]%Z.

Definition write_settings (value : pyval) : M unit :=
  if py_in value (keys settings_dict) then
    n <- getitem settings_dict value ;;
    setattr Moench.settings (detectorSettings n)
  else ret tt.

Definition write_zmqip (value : pyval) : M unit :=
  ok <- re.match_ zmqip_pattern value ;;
  if ok then
    ip <- IpAddr value ;;
    setattr Moench.rx_zmqip ip
  else
    error_stream "not valid ip address".

Definition write_zmqport (value : pyval) : M unit := setattr Moench.rx_zmqport value.

Definition disard_dict : dict :=
  [ ("NO_DISCARD", 0); ("DISCARD_EMPTY_FRAMES", 1); ("DISCARD_PARTIAL_FRAMES", 2) ]%Z.

Definition write_rx_discardpolicy (value : pyval) : M unit :=
  if py_in value (keys disard_dict) then
    n <- getitem disard_dict value ;;
    setattr Moench.rx_discardpolicy (frameDiscardPolicy n)
  else ret tt.

Definition write_rx_missingpackets (value : pyval) : M unit := ret tt.

Definition write_rx_hostname (value : pyval) : M unit := setattr Moench.rx_hostname value.

Definition write_rx_tcpport (value : pyval) : M unit := setattr Moench.rx_tcpport value.

Definition write_rx_status (value : pyval) : M unit := ret tt.

Definition write_rx_zmqstream (value : pyval) : M unit := setattr Moench.rx_zmqstream value.

Definition write_rx_version (value : pyval) : M unit := ret tt.

Definition write_firmware_version (value : pyval) : M unit := ret tt.

Definition start : M unit := device_command "start".

Definition rx_start : M unit := device_command "rx_start".

Definition rx_stop : M unit := device_command "rx_stop".

(** The calls a method makes on its collaborators when run from [w]. *)
Definition calls_made {A} (m : M A) (w : World) : list event :=
  skipn (length (calls w)) (calls (snd (m w))).

Section Collaborators.
(** What the collaborators outside this file answer.  The computer-setup
    helper ([computer_setup.ComputerSetup]) is not part of this file:
    [init_pc] returns a truth value or raises, [deactivate_pc] returns or
    raises.  The vendor library refuses a high voltage it does not allow
    with an exception raised before anything is stored, and reading
    [status] fails when the detector cannot be reached. *)
Variable init_pc : bool -> World -> outcome bool.
Variable deactivate_pc : bool -> World -> outcome unit.
Variable device_status : World -> outcome string.          (* str(self.device.status) *)
Variable set_highvoltage : pyval -> Moench.t -> outcome Moench.t.

(** [self.pc_util.init_pc(virtual=virtual)] *)
Definition pc_util_init_pc (virtual : bool) : M bool :=
  fun w => (init_pc virtual w, called (Ev_init_pc virtual) w).

(** [self.pc_util.deactivate_pc(virtual)] *)
Definition pc_util_deactivate_pc (virtual : bool) : M unit :=
  fun w => (deactivate_pc virtual w, called (Ev_deactivate_pc virtual) w).

(** [self.device = Moench()]: the handle is new, the detector behind it
    is the one there was. *)
Definition new_Moench : M unit :=
  fun w => (Return tt, called Ev_Moench w).

(** [self.device.status] *)
Definition get_status : M string :=
  fun w => (device_status w, called (Ev_get Moench.status) w).

(** [self.device.highvoltage = value] *)
Definition set_device_highvoltage (value : pyval) : M unit :=
  fun w =>
    match set_highvoltage value (device w) with
    | Return d => (Return tt, with_device d (called (Ev_set Moench.highvoltage) w))
    | Raise e => (Raise e, called (Ev_set Moench.highvoltage) w)
    end.

Definition get_VIRTUAL : M bool := fun w => (Return (VIRTUAL w), w).

Definition set_VIRTUAL (b : bool) : M unit :=
  fun w => (Return tt, with_VIRTUAL b w).

Definition delete_device : M unit :=
  try_except
    (virtual <- get_VIRTUAL ;;
     pc_util_deactivate_pc virtual ;;;
     info_stream "SlsReceiver or zmq socket processes were killed.")
    isinstance_Exception
    (fun _ =>
       info_stream "Unable to kill slsReceiver or zmq socket. Please kill it manually.").

(** [argv] is [sys.argv].  The constructor [ComputerSetup()] and the
    framework's [Device.init_device] are taken to succeed and are not
    recorded among the calls. *)
Definition init_device (argv : list string) : M unit :=
  (* self.pc_util = ComputerSetup() *)
  set_VIRTUAL (if existsb (String.eqb "--virtual") argv then true else false) ;;;
  (* Device.init_device(self) *)
  set_state INIT ;;;
  virtual <- get_VIRTUAL ;;
  ok <- pc_util_init_pc virtual ;;
  (if negb ok then
     set_state FAULT ;;;
     info_stream "Unable to start slsReceiver or zmq socket. Check firewall process and already running instances."
   else ret tt) ;;;
  new_Moench ;;;
  try_except
    (st <- get_status ;;
     info_stream ("Current device status: " ++ st))
    isinstance_RuntimeError
    (fun e =>
       set_state FAULT ;;;
       info_stream ("Unable to establish connection with detector" ++ nl ++ exn_str e) ;;;
       delete_device).

Definition write_highvoltage (value : pyval) : M unit :=
  try_except
    (set_device_highvoltage value)
    isinstance_RuntimeError
    (fun _ => error_stream "not allowed highvoltage").
End Collaborators.

(** ** Serving attribute writes *)

Module Attr.
(** The attributes of the device class. *)
Inductive name : Type :=
| exposure | timing_mode | triggers | filename | filepath | frames
| filewrite | highvoltage | period | samples | settings | zmqip | zmqport
| rx_discardpolicy | rx_missingpackets | rx_hostname | rx_tcpport
| rx_status | rx_zmqstream | rx_version | firmware_version.
End Attr.

(** Tango calls the method [write_<name>] for a write of attribute [name]. *)
Definition write_attribute (set_highvoltage : pyval -> Moench.t -> outcome Moench.t)
    (a : Attr.name) (value : pyval) : M unit :=
  match a with
  | Attr.exposure => write_exposure value
  | Attr.timing_mode => write_timing_mode value
  | Attr.triggers => write_triggers value
  | Attr.filename => write_filename value
  | Attr.filepath => write_filepath value
  | Attr.frames => write_frames value
  | Attr.filewrite => write_filewrite value
  | Attr.highvoltage => write_highvoltage set_highvoltage value
  | Attr.period => write_period value
  | Attr.samples => write_samples value
  | Attr.settings => write_settings value
  | Attr.zmqip => write_zmqip value
  | Attr.zmqport => write_zmqport value
  | Attr.rx_discardpolicy => write_rx_discardpolicy value
  | Attr.rx_missingpackets => write_rx_missingpackets value
  | Attr.rx_hostname => write_rx_hostname value
  | Attr.rx_tcpport => write_rx_tcpport value
  | Attr.rx_status => write_rx_status value
  | Attr.rx_zmqstream => write_rx_zmqstream value
  | Attr.rx_version => write_rx_version value
  | Attr.firmware_version => write_firmware_version value
  end.

(** A run of attribute writes; an exception of a writer goes to the client
    and the device serves the next request. *)
Fixpoint serve_writes (set_highvoltage : pyval -> Moench.t -> outcome Moench.t)
    (reqs : list (Attr.name * pyval)) (w : World) : World :=
  match reqs with
  | [] => w
  | (a, value) :: rest =>
      serve_writes set_highvoltage rest (snd (write_attribute set_highvoltage a value w))
  end.

(** ** The specification's vocabulary *)

Fixpoint all_chars (f : ascii -> bool) (s : string) : bool :=
  match s with
  | EmptyString => true
  | String c s' => f c && all_chars f s'
  end.

(** A group of one to three digits. *)
Definition digit_group (g : string) : bool :=
  ((1 <=? String.length g) && (String.length g <=? 3))%nat && all_chars re.is_digit g.

(** Dotted-quad syntax: four groups of one to three digits separated by dots. *)
Definition dotted_quad (s : string) : Prop :=
  exists g1 g2 g3 g4 : string,
    digit_group g1 = true /\ digit_group g2 = true /\
    digit_group g3 = true /\ digit_group g4 = true /\
    s = g1 ++ "." ++ g2 ++ "." ++ g3 ++ "." ++ g4.

(** The gain settings and their enum values as the specification lists them. *)
Definition gain_settings : list (string * Z) :=
  [ ("G1_HIGHGAIN", 13); ("G1_LOWGAIN", 14); ("G2_HIGHCAP_HIGHGAIN", 15);
    ("G2_HIGHCAP_LOWGAIN", 16); ("G2_LOWCAP_HIGHGAIN", 17);
    ("G2_LOWCAP_LOWGAIN", 18); ("G4_HIGHGAIN", 19); ("G4_LOWGAIN", 20) ]%Z.

(** The three discard policies, each with its value in [frameDiscardPolicy]. *)
Definition discard_policies : list (string * Z) :=
  [ ("NO_DISCARD", 0); ("DISCARD_EMPTY_FRAMES", 1); ("DISCARD_PARTIAL_FRAMES", 2) ]%Z.

(** The world after [write_zmqip] has forwarded [value] to the detector: an
    [IpAddr] built from the string and assigned to [rx_zmqip]. *)
Definition zmqip_forwarded (value : string) (w : World) : World :=
  assigned Moench.rx_zmqip (VIpAddr value) (called (Ev_IpAddr value) w).

(** A method that leaves [self.VIRTUAL] as it finds it. *)
Definition keeps_VIRTUAL {A} (m : M A) : Prop :=
  forall w : World, VIRTUAL (snd (m w)) = VIRTUAL w.

(** ** Attribute readers *)

Section Readers.
(** [str(x)] of a vendor object is the vendor's business: a parameter. *)
Variable py_str : pyval -> string.

Definition read_exposure : M pyval := getattr Moench.exptime.

Definition read_triggers : M pyval := getattr Moench.triggers.

Definition read_filename : M pyval := getattr Moench.filename.

Definition read_filepath : M pyval :=
  p <- getattr Moench.fpath ;; ret (PyStr (py_str p)).

Definition read_frames : M pyval := getattr Moench.frames.

Definition read_filewrite : M pyval := getattr Moench.fwrite.

Definition read_highvoltage : M pyval := getattr Moench.highvoltage.

Definition read_period : M pyval := getattr Moench.period.

Definition read_samples : M pyval := getattr Moench.samples.

Definition read_settings : M pyval :=
  x <- getattr Moench.settings ;; ret (PyStr (py_str x)).

Definition read_zmqip : M pyval :=
  x <- getattr Moench.rx_zmqip ;; ret (PyStr (py_str x)).

Definition read_zmqport : M pyval := getattr Moench.rx_zmqport.

Definition read_rx_discardpolicy : M pyval := getattr Moench.rx_discardpolicy.

Definition read_rx_missingpackets : M pyval :=
  x <- getattr Moench.rx_missingpackets ;; ret (PyStr (py_str x)).

Definition read_rx_hostname : M pyval := getattr Moench.rx_hostname.

Definition read_rx_tcpport : M pyval := getattr Moench.rx_tcpport.

Definition read_rx_status : M pyval :=
  x <- getattr Moench.rx_status ;; ret (PyStr (py_str x)).

Definition read_rx_zmqstream : M pyval := getattr Moench.rx_zmqstream.

Definition read_rx_version : M pyval := getattr Moench.rx_version.

Definition read_firmware_version : M pyval := getattr Moench.firmwareversion.

(** Tango calls the method [read_<name>] for a read of attribute [name]. *)
Definition read_attribute (a : Attr.name) : M pyval :=
  match a with
  | Attr.exposure => read_exposure
  | Attr.timing_mode => read_timing_mode
  | Attr.triggers => read_triggers
  | Attr.filename => read_filename
  | Attr.filepath => read_filepath
  | Attr.frames => read_frames
  | Attr.filewrite => read_filewrite
  | Attr.highvoltage => read_highvoltage
  | Attr.period => read_period
  | Attr.samples => read_samples
  | Attr.settings => read_settings
  | Attr.zmqip => read_zmqip
  | Attr.zmqport => read_zmqport
  | Attr.rx_discardpolicy => read_rx_discardpolicy
  | Attr.rx_missingpackets => read_rx_missingpackets
  | Attr.rx_hostname => read_rx_hostname
  | Attr.rx_tcpport => read_rx_tcpport
  | Attr.rx_status => read_rx_status
  | Attr.rx_zmqstream => read_rx_zmqstream
  | Attr.rx_version => read_rx_version
  | Attr.firmware_version => read_firmware_version
  end.
End Readers.

(** ** Vocabulary for the footprint of a method *)

(** The detector property behind an attribute. *)
Definition property_of (a : Attr.name) : Moench.prop :=
  match a with
  | Attr.exposure => Moench.exptime
  | Attr.timing_mode => Moench.timing
  | Attr.triggers => Moench.triggers
  | Attr.filename => Moench.filename
  | Attr.filepath => Moench.fpath
  | Attr.frames => Moench.frames
  | Attr.filewrite => Moench.fwrite
  | Attr.highvoltage => Moench.highvoltage
  | Attr.period => Moench.period
  | Attr.samples => Moench.samples
  | Attr.settings => Moench.settings
  | Attr.zmqip => Moench.rx_zmqip
  | Attr.zmqport => Moench.rx_zmqport
  | Attr.rx_discardpolicy => Moench.rx_discardpolicy
  | Attr.rx_missingpackets => Moench.rx_missingpackets
  | Attr.rx_hostname => Moench.rx_hostname
  | Attr.rx_tcpport => Moench.rx_tcpport
  | Attr.rx_status => Moench.rx_status
  | Attr.rx_zmqstream => Moench.rx_zmqstream
  | Attr.rx_version => Moench.rx_version
  | Attr.firmware_version => Moench.firmwareversion
  end.

(** The attributes whose writer hands the value to the detector as it is
    and whose reader hands the detector's value back as it is. *)
Definition passthrough : list Attr.name :=
  [ Attr.exposure; Attr.triggers; Attr.filename; Attr.frames; Attr.filewrite;
    Attr.period; Attr.samples; Attr.zmqport; Attr.rx_hostname; Attr.rx_tcpport;
    Attr.rx_zmqstream ].

(** A call on the detector object or a vendor constructor, as opposed to a
    call on the computer-setup helper or a new [Moench()]. *)
Definition detector_call (e : event) : bool :=
  match e with
  | Ev_get _ | Ev_set _ | Ev_command _ | Ev_IpAddr _ => true
  | Ev_Moench | Ev_init_pc _ | Ev_deactivate_pc _ => false
  end.

(** A method that leaves the device server itself alone: the virtual flag
    and the Tango state stay, the log only grows, and the only calls made
    are calls on the detector. *)
Definition server_untouched {A} (m : M A) : Prop :=
  forall w : World,
    VIRTUAL (snd (m w)) = VIRTUAL w /\
    dev_state (snd (m w)) = dev_state w /\
    (exists l, stream (snd (m w)) = (stream w ++ l)%list) /\
    (exists evs, calls (snd (m w)) = (calls w ++ evs)%list
                 /\ forallb detector_call evs = true).

(** A method that changes no detector property other than [q]. *)
Definition touches_only {A} (q : Moench.prop) (m : M A) : Prop :=
  forall (w : World) (p : Moench.prop),
    p <> q -> device (snd (m w)) p = device w p.

(** The characters a string accepted by the zmqip pattern is made of. *)
Definition zmqip_char (c : ascii) : bool :=
  re.is_digit c || Ascii.eqb c "." || Ascii.eqb c re.newline.

(** The number of occurrences of a character in a string. *)
Fixpoint count_char (c : ascii) (s : string) : nat :=
  match s with
  | EmptyString => 0
  | String c' s' => (if Ascii.eqb c c' then 1 else 0) + count_char c s'
  end.

(** Collaborators that answer the same whatever the state of the server. *)
Definition always {A B} (b : B) (_ : A) : B := b.

(** ** Collaborators and worlds to run the server on *)

(** A vendor setter that allows 0 V and 60..200 V and refuses the rest. *)
Definition strict_highvoltage (value : pyval) (d : Moench.t) : outcome Moench.t :=
  match value with
  | PyInt n =>
      if ((n =? 0) || ((60 <=? n) && (n <=? 200)))%Z
      then Return (Moench.set d Moench.highvoltage value)
      else Raise (RuntimeError "invalid high voltage")
  | _ => Raise (TypeError "incompatible function arguments")
  end.

(** A computer-setup helper whose teardown finds no process to kill. *)
Definition failing_deactivate_pc (_ : bool) (_ : World) : outcome unit :=
  Raise (OtherException "ProcessLookupError" "no such process").

(** A computer-setup helper that cannot start the receiver. *)
Definition refusing_init_pc (_ : bool) (_ : World) : outcome bool := Return false.

(** A detector that answers the status request. *)
Definition idle_status (_ : World) : outcome string := Return "runStatus.IDLE".

(** A device object before [init_device], over a detector left in gated
    timing (a member of [timingMode] the server has no name for). *)
Definition fresh_world : World :=
  mkWorld (fun p => match p with
                    | Moench.timing => VTimingMode (timingMode_other 2)
                    | _ => PyNone
                    end)
          false UNKNOWN [] [].

(** * Properties *)

(** ** Lists, strings and worlds *)

Lemma skipn_length_app {A} (l l' : list A) : skipn (length l) (l ++ l')%list = l'.
Proof. induction l as [|x l IH]; simpl; auto. Qed.

Lemma skipn_length_nil {A} (l : list A) : skipn (length l) l = [].
Proof. induction l as [|x l IH]; simpl; auto. Qed.

Lemma string_app_assoc (a b c : string) : ((a ++ b) ++ c = a ++ (b ++ c))%string.
Proof. induction a as [|x a IH]; simpl; [reflexivity | now rewrite IH]. Qed.

Lemma string_app_nil_r (a : string) : (a ++ EmptyString = a)%string.
Proof. induction a as [|x a IH]; simpl; [reflexivity | now rewrite IH]. Qed.

Lemma all_chars_app f (a b : string) :
  all_chars f (a ++ b) = all_chars f a && all_chars f b.
Proof.
  induction a as [|x a IH]; simpl; [reflexivity|].
  now rewrite IH, andb_assoc.
Qed.

(** ** The matcher *)

Lemma match_repeat_true cat k hi : forall lo pos s,
  re.match_repeat cat k lo hi pos s = true <->
  exists g r : string,
    s = (g ++ r)%string /\ lo <= String.length g <= hi /\
    all_chars (re.in_category cat) g = true /\
    k (pos + String.length g) r = true.
Proof.
  induction hi as [|hi IH]; intros lo pos s.
  - simpl. rewrite andb_true_iff, Nat.eqb_eq. split.
    + intros [-> Hk]. exists EmptyString, s. simpl.
      rewrite Nat.add_0_r. repeat split; auto.
    + intros (g & r & -> & [Hlo Hhi] & _ & Hk).
      destruct g; simpl in *; [|lia].
      rewrite Nat.add_0_r in Hk. split; [lia | assumption].
  - destruct s as [|c s'].
    + simpl. rewrite andb_true_iff, Nat.eqb_eq. split.
      * intros [-> Hk]. exists EmptyString, EmptyString. simpl.
        rewrite Nat.add_0_r. repeat split; auto; lia.
      * intros (g & r & E & [Hlo Hhi] & _ & Hk).
        destruct g; simpl in *; [|discriminate].
        subst r. rewrite Nat.add_0_r in Hk. split; [lia | assumption].
    + cbn [re.match_repeat].
      rewrite orb_true_iff, !andb_true_iff, Nat.eqb_eq, IH. split.
      * intros [[Hc (g & r & -> & [Hlo Hhi] & Hall & Hk)] | [-> Hk]].
        -- exists (String c g), r. simpl. rewrite Hc, Hall.
           rewrite Nat.add_succ_r. repeat split; auto; lia.
        -- exists EmptyString, (String c s'). simpl.
           rewrite Nat.add_0_r. repeat split; auto; lia.
      * intros (g & r & E & [Hlo Hhi] & Hall & Hk).
        destruct g as [|c' g]; simpl in *.
        -- right. subst r. rewrite Nat.add_0_r in Hk. split; [lia | assumption].
        -- injection E as <- ->. apply andb_true_iff in Hall as [Hc Hall].
           left. split; [assumption|].
           exists g, r. rewrite Nat.add_succ_r in Hk.
           repeat split; auto; lia.
Qed.

Lemma sre_match_repeat lo hi cat p pos s :
  re.sre_match (re.MAX_REPEAT lo hi cat :: p) pos s = true <->
  exists g r : string,
    s = (g ++ r)%string /\ lo <= String.length g <= hi /\
    all_chars (re.in_category cat) g = true /\
    re.sre_match p (pos + String.length g) r = true.
Proof. cbn [re.sre_match]. apply match_repeat_true. Qed.

Lemma sre_match_literal c p pos s :
  re.sre_match (re.LITERAL c :: p) pos s = true <->
  exists r : string, s = String c r /\ re.sre_match p (S pos) r = true.
Proof.
  cbn [re.sre_match]. destruct s as [|c' s'].
  - split; [discriminate | intros (r & E & _); discriminate].
  - rewrite andb_true_iff, Ascii.eqb_eq. split.
    + intros [-> H]. now exists s'.
    + intros (r & E & H). injection E as -> ->. now split.
Qed.

Lemma sre_match_begin p pos s :
  re.sre_match (re.AT_BEGINNING :: p) pos s = true <->
  pos = 0 /\ re.sre_match p pos s = true.
Proof. cbn [re.sre_match]. now rewrite andb_true_iff, Nat.eqb_eq. Qed.

Lemma at_end_true (s : string) :
  re.at_end s = true <-> s = EmptyString \/ s = nl.
Proof.
  destruct s as [|c [|c' s']]; simpl.
  - split; auto.
  - rewrite Ascii.eqb_eq. unfold nl. split.
    + intros ->. now right.
    + intros [E | E]; [discriminate | now injection E].
  - split; [discriminate | intros [E | E]; discriminate].
Qed.

Lemma digit_group_true (g : string) :
  digit_group g = true <->
  1 <= String.length g <= 3 /\ all_chars (re.in_category re.CATEGORY_DIGIT) g = true.
Proof.
  unfold digit_group.
  change (re.in_category re.CATEGORY_DIGIT) with re.is_digit.
  rewrite !andb_true_iff, !Nat.leb_le. tauto.
Qed.

Lemma sre_match_end pos s :
  re.sre_match [re.AT_END] pos s = true <-> s = EmptyString \/ s = nl.
Proof. cbn [re.sre_match]. rewrite andb_true_r. apply at_end_true. Qed.

(** What [re.match] accepts for the zmqip pattern: four digit groups
    separated by dots, then the end of the string or one last newline. *)
Lemma zmqip_pattern_true (s : string) :
  re.sre_match zmqip_pattern 0 s = true <->
  exists g1 g2 g3 g4 tail : string,
    digit_group g1 = true /\ digit_group g2 = true /\
    digit_group g3 = true /\ digit_group g4 = true /\
    (tail = EmptyString \/ tail = nl) /\
    s = (g1 ++ "." ++ g2 ++ "." ++ g3 ++ "." ++ g4 ++ tail)%string.
Proof.
  unfold zmqip_pattern. split.
  - intros H.
    apply sre_match_begin in H as [_ H].
    apply sre_match_repeat in H as (g1 & r1 & -> & L1 & A1 & H).
    apply sre_match_literal in H as (r1' & -> & H).
    apply sre_match_repeat in H as (g2 & r2 & -> & L2 & A2 & H).
    apply sre_match_literal in H as (r2' & -> & H).
    apply sre_match_repeat in H as (g3 & r3 & -> & L3 & A3 & H).
    apply sre_match_literal in H as (r3' & -> & H).
    apply sre_match_repeat in H as (g4 & r4 & -> & L4 & A4 & H).
    apply sre_match_end in H.
    exists g1, g2, g3, g4, r4.
    rewrite !digit_group_true. repeat split; auto; lia.
  - intros (g1 & g2 & g3 & g4 & tail & G1 & G2 & G3 & G4 & T & ->).
    apply digit_group_true in G1 as [L1 A1], G2 as [L2 A2], G3 as [L3 A3], G4 as [L4 A4].
    apply sre_match_begin. split; [reflexivity|].
    apply sre_match_repeat. exists g1. eexists. repeat split; eauto; try lia.
    apply sre_match_literal. eexists. split; [reflexivity|].
    apply sre_match_repeat. exists g2. eexists. repeat split; eauto; try lia.
    apply sre_match_literal. eexists. split; [reflexivity|].
    apply sre_match_repeat. exists g3. eexists. repeat split; eauto; try lia.
    apply sre_match_literal. eexists. split; [reflexivity|].
    apply sre_match_repeat. exists g4, tail. repeat split; eauto; try lia.
    now apply sre_match_end.
Qed.

Lemma write_zmqip_matched (s : string) (w : World) :
  re.sre_match zmqip_pattern 0 s = true ->
  write_zmqip (PyStr s) w = (Return tt, zmqip_forwarded s w).
Proof.
  intros H. unfold write_zmqip, bind, re.match_, ret. now rewrite H.
Qed.

Lemma write_zmqip_unmatched (s : string) (w : World) :
  re.sre_match zmqip_pattern 0 s = false ->
  write_zmqip (PyStr s) w = (Return tt, logged ERROR "not valid ip address" w).
Proof.
  intros H. unfold write_zmqip, bind, re.match_, ret. now rewrite H.
Qed.

Lemma dotted_quad_chars (s : string) :
  dotted_quad s ->
  all_chars (fun c => re.is_digit c || Ascii.eqb c ".") s = true.
Proof.
  assert (G : forall g, digit_group g = true ->
            all_chars (fun c => re.is_digit c || Ascii.eqb c ".") g = true).
  { intros g Hg. unfold digit_group in Hg. apply andb_true_iff in Hg as [_ Hg].
    induction g as [|c g IH]; simpl in *; [reflexivity|].
    apply andb_true_iff in Hg as [Hc Hg]. now rewrite Hc, IH. }
  intros (g1 & g2 & g3 & g4 & G1 & G2 & G3 & G4 & ->).
  rewrite !all_chars_app, (G g1), (G g2), (G g3), (G g4) by assumption.
  reflexivity.
Qed.

Lemma zmqip_pattern_dotted_quad (s : string) :
  re.sre_match zmqip_pattern 0 s = true <->
  dotted_quad s \/ exists q : string, dotted_quad q /\ s = q ++ nl.
Proof.
  rewrite zmqip_pattern_true. split.
  - intros (g1 & g2 & g3 & g4 & tail & G1 & G2 & G3 & G4 & [-> | ->] & ->).
    + left. exists g1, g2, g3, g4. rewrite string_app_nil_r. auto.
    + right. exists (g1 ++ "." ++ g2 ++ "." ++ g3 ++ "." ++ g4). split.
      * exists g1, g2, g3, g4. auto.
      * now rewrite !string_app_assoc.
  - intros [(g1 & g2 & g3 & g4 & G1 & G2 & G3 & G4 & ->)
           | (q & (g1 & g2 & g3 & g4 & G1 & G2 & G3 & G4 & ->) & ->)].
    + exists g1, g2, g3, g4, EmptyString. rewrite string_app_nil_r. auto 10.
    + exists g1, g2, g3, g4, nl. rewrite !string_app_assoc. auto 10.
Qed.

(** The language of the zmqip pattern in the specification's vocabulary:
    [re.match] accepts a dotted quad, a dotted quad followed by one newline,
    and nothing else. *)
Theorem zmqip_pattern_language (s : string) :
  re.sre_match zmqip_pattern 0 s = true <->
  dotted_quad s \/ exists q : string, dotted_quad q /\ s = q ++ nl.
Proof. exact (zmqip_pattern_dotted_quad s). Qed.

(** [write_zmqip] on every [str], in the specification's vocabulary: a
    dotted quad, alone or followed by one newline, goes to the detector
    unchanged; every other string is refused with an error message and
    nothing else happens. *)
Theorem write_zmqip_total (s : string) (w : World) :
  (dotted_quad s \/ (exists q : string, dotted_quad q /\ s = q ++ nl) ->
   write_zmqip (PyStr s) w = (Return tt, zmqip_forwarded s w))
  /\
  (~ (dotted_quad s \/ exists q : string, dotted_quad q /\ s = q ++ nl) ->
   write_zmqip (PyStr s) w = (Return tt, logged ERROR "not valid ip address" w)).
Proof.
  split; intros H.
  - apply write_zmqip_matched. now apply zmqip_pattern_dotted_quad.
  - apply write_zmqip_unmatched.
    destruct (re.sre_match zmqip_pattern 0 s) eqn:E; [|reflexivity].
    exfalso. apply H. now apply zmqip_pattern_dotted_quad.
Qed.

(** The two branches of [write_zmqip] in terms of its own test: the value
    is forwarded exactly when the matcher accepts it, and refused with the
    error line, no call and no state change otherwise. *)
Lemma write_zmqip_iff_match (value : string) (w : World) :
  (calls_made (write_zmqip (PyStr value)) w = [Ev_IpAddr value; Ev_set Moench.rx_zmqip]
   <-> re.sre_match zmqip_pattern 0 value = true)
  /\ (write_zmqip (PyStr value) w = (Return tt, zmqip_forwarded value w)
      <-> re.sre_match zmqip_pattern 0 value = true)
  /\ (re.sre_match zmqip_pattern 0 value = false ->
      write_zmqip (PyStr value) w = (Return tt, logged ERROR "not valid ip address" w)
      /\ calls_made (write_zmqip (PyStr value)) w = []
      /\ device (snd (write_zmqip (PyStr value) w)) = device w
      /\ dev_state (snd (write_zmqip (PyStr value) w)) = dev_state w).
Proof.
  assert (F : re.sre_match zmqip_pattern 0 value = true ->
              calls_made (write_zmqip (PyStr value)) w
              = [Ev_IpAddr value; Ev_set Moench.rx_zmqip]).
  { intros H. unfold calls_made. rewrite (write_zmqip_matched _ w H).
    cbn [snd zmqip_forwarded assigned with_device called calls].
    rewrite <- app_assoc. apply skipn_length_app. }
  assert (R : re.sre_match zmqip_pattern 0 value = false ->
              calls_made (write_zmqip (PyStr value)) w = []).
  { intros H. unfold calls_made. rewrite (write_zmqip_unmatched _ w H).
    cbn [snd logged calls]. apply skipn_length_nil. }
  split; [|split].
  - split; [|exact F]. intros C.
    destruct (re.sre_match zmqip_pattern 0 value) eqn:E; [reflexivity|].
    rewrite (R eq_refl) in C. discriminate C.
  - split; [|apply write_zmqip_matched]. intros C.
    destruct (re.sre_match zmqip_pattern 0 value) eqn:E; [reflexivity|].
    rewrite (write_zmqip_unmatched _ w E) in C.
    apply (f_equal (fun r => List.length (calls (snd r)))) in C.
    cbn [snd zmqip_forwarded assigned with_device logged called calls] in C.
    rewrite !length_app in C. simpl in C. lia.
  - intros H. rewrite (write_zmqip_unmatched _ w H).
    split; [reflexivity|]. split; [exact (R H)|]. split; reflexivity.
Qed.

(** The pattern's [$] lets one newline through: the string "1.2.3.4"
    followed by a newline is not a dotted quad, and [write_zmqip] builds
    an [IpAddr] from it and assigns it to [rx_zmqip], with nothing logged. *)
Theorem write_zmqip_trailing_newline (w : World) :
  let value := "1.2.3.4" ++ nl in
  ~ dotted_quad value /\
  write_zmqip (PyStr value) w = (Return tt, zmqip_forwarded value w) /\
  Moench.get (device (snd (write_zmqip (PyStr value) w))) Moench.rx_zmqip = VIpAddr value /\
  stream (snd (write_zmqip (PyStr value) w)) = stream w.
Proof.
  cbv zeta. split; [|repeat split].
  intros H. apply dotted_quad_chars in H. discriminate H.
Qed.

(** C1, measured against dotted-quad syntax (four groups of one to three
    digits separated by dots).  Every dotted quad is forwarded to the
    detector, and every string that is neither a dotted quad nor a dotted
    quad followed by one newline is refused with the error line logged and
    nothing else changed, as the claim says.  But the claim's "only if"
    fails: a string that is not a dotted quad is forwarded all the same
    exactly when it is a dotted quad followed by one newline, and such
    strings exist. *)
Theorem write_zmqip_forwards_beyond_dotted_quad (s : string) (w : World) :
  (dotted_quad s -> write_zmqip (PyStr s) w = (Return tt, zmqip_forwarded s w))
  /\ (~ dotted_quad s ->
      (write_zmqip (PyStr s) w = (Return tt, zmqip_forwarded s w)
       <-> exists q : string, dotted_quad q /\ s = q ++ nl))
  /\ (~ dotted_quad s -> (forall q : string, dotted_quad q -> s <> q ++ nl) ->
      write_zmqip (PyStr s) w = (Return tt, logged ERROR "not valid ip address" w)
      /\ calls_made (write_zmqip (PyStr s)) w = []
      /\ device (snd (write_zmqip (PyStr s) w)) = device w)
  /\ ~ (forall s' : string,
          write_zmqip (PyStr s') w = (Return tt, zmqip_forwarded s' w) ->
          dotted_quad s').
Proof.
  destruct (write_zmqip_iff_match s w) as (_ & F & R).
  split; [|split; [|split]].
  - intros D. apply F, zmqip_pattern_dotted_quad. now left.
  - intros N. rewrite F, zmqip_pattern_dotted_quad. split.
    + intros [D | Q]; [contradiction | exact Q].
    + intros Q. now right.
  - intros N Q.
    assert (E : re.sre_match zmqip_pattern 0 s = false).
    { destruct (re.sre_match zmqip_pattern 0 s) eqn:E; [|reflexivity].
      apply zmqip_pattern_dotted_quad in E as [D | (q & D & ->)];
        [contradiction | now elim (Q q D)]. }
    destruct (R E) as (R1 & R2 & R3 & _). repeat split; assumption.
  - intros H. specialize (H ("1.2.3.4" ++ nl) eq_refl).
    apply dotted_quad_chars in H. discriminate H.
Qed.

(** C9: every string of four groups of one to three digits separated by
    dots is accepted, whatever the numbers the groups spell: the string
    itself, unchecked, is what the [IpAddr] constructor receives and what is
    assigned to [rx_zmqip]. *)
Theorem write_zmqip_accepts_every_digit_quad (g1 g2 g3 g4 : string) (w : World) :
  digit_group g1 = true -> digit_group g2 = true ->
  digit_group g3 = true -> digit_group g4 = true ->
  let value := g1 ++ "." ++ g2 ++ "." ++ g3 ++ "." ++ g4 in
  write_zmqip (PyStr value) w = (Return tt, zmqip_forwarded value w) /\
  calls_made (write_zmqip (PyStr value)) w = [Ev_IpAddr value; Ev_set Moench.rx_zmqip] /\
  Moench.get (device (snd (write_zmqip (PyStr value) w))) Moench.rx_zmqip = VIpAddr value /\
  stream (snd (write_zmqip (PyStr value) w)) = stream w.
Proof.
  intros G1 G2 G3 G4 value.
  assert (E : write_zmqip (PyStr value) w = (Return tt, zmqip_forwarded value w)).
  { apply write_zmqip_matched, zmqip_pattern_dotted_quad. left.
    exists g1, g2, g3, g4. auto. }
  unfold calls_made. rewrite E.
  cbn [snd zmqip_forwarded assigned with_device called calls device stream].
  split; [reflexivity|]. split; [|split; reflexivity].
  rewrite <- app_assoc. apply skipn_length_app.
Qed.

Lemma write_zmqip_999 :
  digit_group "999" = true /\
  write_zmqip (PyStr "999.999.999.999") fresh_world
  = (Return tt, zmqip_forwarded "999.999.999.999" fresh_world).
Proof.
  split; [reflexivity|].
  exact (proj1 (write_zmqip_accepts_every_digit_quad "999" "999" "999" "999"
                  fresh_world eq_refl eq_refl eq_refl eq_refl)).
Defined.

(** ** Enum names: settings and discard policy *)

Lemma py_in_str (s : string) (l : list string) :
  py_in (PyStr s) l = true <-> In s l.
Proof.
  simpl. rewrite existsb_exists. split.
  - intros (x & Hx & E). apply String.eqb_eq in E. now subst.
  - intros H. exists s. split; [assumption | apply String.eqb_refl].
Qed.

Lemma py_in_str_false (s : string) (l : list string) :
  ~ In s l -> py_in (PyStr s) l = false.
Proof.
  intros H. destruct (py_in (PyStr s) l) eqn:E; [|reflexivity].
  exfalso. now apply H, py_in_str.
Qed.

Lemma calls_made_assigned {A} (m : M A) (a : A) p v (w : World) :
  m w = (Return a, assigned p v w) -> calls_made m w = [Ev_set p].
Proof.
  intros E. unfold calls_made. rewrite E. simpl. apply skipn_length_app.
Qed.

Lemma calls_made_unchanged {A} (m : M A) (a : outcome A) (w : World) :
  m w = (a, w) -> calls_made m w = [].
Proof.
  intros E. unfold calls_made. rewrite E. simpl. apply skipn_length_nil.
Qed.

(** C2: a write of one of the eight gain names assigns [settings] the enum
    value the table gives for it (13 to 20); the assignment happens if and
    only if the string is one of the eight names; any other string leaves
    the world as it was: nothing raised, nothing logged, nothing called. *)
Theorem write_settings_known_names (value : string) (w : World) :
  (forall n : Z, In (value, n) gain_settings ->
     write_settings (PyStr value) w
     = (Return tt, assigned Moench.settings (VDetectorSettings n) w))
  /\ (calls_made (write_settings (PyStr value)) w = [Ev_set Moench.settings]
      <-> In value (map fst gain_settings))
  /\ (~ In value (map fst gain_settings) ->
      write_settings (PyStr value) w = (Return tt, w)).
Proof.
  assert (K : forall n : Z, In (value, n) gain_settings ->
     write_settings (PyStr value) w
     = (Return tt, assigned Moench.settings (VDetectorSettings n) w)).
  { intros n H. simpl in H.
    repeat (destruct H as [H | H]; [injection H as <- <-; reflexivity|]).
    contradiction. }
  assert (U : ~ In value (map fst gain_settings) ->
      write_settings (PyStr value) w = (Return tt, w)).
  { intros H. unfold write_settings.
    change (keys settings_dict) with (map fst gain_settings).
    now rewrite (py_in_str_false _ _ H). }
  split; [exact K|]. split; [|exact U].
  split.
  - intros C. destruct (in_dec string_dec value (map fst gain_settings)) as [I | N];
      [assumption|].
    rewrite (calls_made_unchanged _ _ _ (U N)) in C. discriminate.
  - intros I. apply in_map_iff in I as ([name n] & E & I). simpl in E. subst name.
    exact (calls_made_assigned _ _ _ _ _ (K n I)).
Qed.

(** C3: a write of NO_DISCARD, DISCARD_EMPTY_FRAMES or
    DISCARD_PARTIAL_FRAMES assigns [rx_discardpolicy] the matching member of
    [frameDiscardPolicy] (0, 1, 2); the assignment happens if and only if
    the string is one of the three; any other string, the documented
    DISCARD_EMPTY and DISCARD_PARTIAL among them, leaves the world as it
    was. *)
Theorem write_rx_discardpolicy_known_names (value : string) (w : World) :
  (forall n : Z, In (value, n) discard_policies ->
     write_rx_discardpolicy (PyStr value) w
     = (Return tt, assigned Moench.rx_discardpolicy (VFrameDiscardPolicy n) w))
  /\ (calls_made (write_rx_discardpolicy (PyStr value)) w = [Ev_set Moench.rx_discardpolicy]
      <-> In value ["NO_DISCARD"; "DISCARD_EMPTY_FRAMES"; "DISCARD_PARTIAL_FRAMES"])
  /\ (~ In value ["NO_DISCARD"; "DISCARD_EMPTY_FRAMES"; "DISCARD_PARTIAL_FRAMES"] ->
      write_rx_discardpolicy (PyStr value) w = (Return tt, w))
  /\ write_rx_discardpolicy (PyStr "DISCARD_EMPTY") w = (Return tt, w)
  /\ write_rx_discardpolicy (PyStr "DISCARD_PARTIAL") w = (Return tt, w).
Proof.
  assert (K : forall n : Z, In (value, n) discard_policies ->
     write_rx_discardpolicy (PyStr value) w
     = (Return tt, assigned Moench.rx_discardpolicy (VFrameDiscardPolicy n) w)).
  { intros n H. simpl in H.
    repeat (destruct H as [H | H]; [injection H as <- <-; reflexivity|]).
    contradiction. }
  assert (U : ~ In value ["NO_DISCARD"; "DISCARD_EMPTY_FRAMES"; "DISCARD_PARTIAL_FRAMES"] ->
      write_rx_discardpolicy (PyStr value) w = (Return tt, w)).
  { intros H. unfold write_rx_discardpolicy.
    change (keys disard_dict)
      with ["NO_DISCARD"; "DISCARD_EMPTY_FRAMES"; "DISCARD_PARTIAL_FRAMES"].
    now rewrite (py_in_str_false _ _ H). }
  split; [exact K|]. split; [|split; [exact U | split; reflexivity]].
  split.
  - intros C.
    destruct (in_dec string_dec value
                ["NO_DISCARD"; "DISCARD_EMPTY_FRAMES"; "DISCARD_PARTIAL_FRAMES"])
      as [I | N]; [assumption|].
    rewrite (calls_made_unchanged _ _ _ (U N)) in C. discriminate.
  - intros I.
    change ["NO_DISCARD"; "DISCARD_EMPTY_FRAMES"; "DISCARD_PARTIAL_FRAMES"]
      with (map fst discard_policies) in I.
    apply in_map_iff in I as ([name n] & E & I). simpl in E. subst name.
    exact (calls_made_assigned _ _ _ _ _ (K n I)).
Qed.

(** ** Writers of the read-only attributes *)

(** C4: the writers of [rx_missingpackets], [rx_status], [rx_version] and
    [firmware_version] return with the world exactly as it was, whatever
    the value: no call on the detector, no state change, nothing raised,
    nothing logged.  The four attributes are declared with read access. *)
Theorem readonly_writers_do_nothing (value : pyval) (w : World) :
  write_rx_missingpackets value w = (Return tt, w) /\
  write_rx_status value w = (Return tt, w) /\
  write_rx_version value w = (Return tt, w) /\
  write_firmware_version value w = (Return tt, w) /\
  calls_made (write_rx_missingpackets value) w = [] /\
  calls_made (write_rx_status value) w = [] /\
  calls_made (write_rx_version value) w = [] /\
  calls_made (write_firmware_version value) w = [] /\
  map access [rx_missingpackets; rx_status; rx_version; firmware_version]
  = [READ; READ; READ; READ].
Proof.
  repeat split; apply (calls_made_unchanged _ (Return tt)); reflexivity.
Qed.

(** ** Timing mode *)

(** C5: writing "AUTO" stores [AUTO_TIMING] and writing "EXT" stores
    [TRIGGER_EXPOSURE] in [device.timing]; reading gives "AUTO" for
    [AUTO_TIMING] and "EXT" for [TRIGGER_EXPOSURE]; a write of either string
    followed by a read gives the string back. *)
Theorem timing_mode_mapping (w : World) :
  write_timing_mode (PyStr "AUTO") w
  = (Return tt, assigned Moench.timing (VTimingMode AUTO_TIMING)
                  (logged INFO "Setting auto timing mode" w))
  /\ write_timing_mode (PyStr "EXT") w
     = (Return tt, assigned Moench.timing (VTimingMode TRIGGER_EXPOSURE)
                     (logged INFO "Setting external timing mode" w))
  /\ Moench.get (device (snd (write_timing_mode (PyStr "AUTO") w))) Moench.timing
     = VTimingMode AUTO_TIMING
  /\ Moench.get (device (snd (write_timing_mode (PyStr "EXT") w))) Moench.timing
     = VTimingMode TRIGGER_EXPOSURE
  /\ (Moench.get (device w) Moench.timing = VTimingMode AUTO_TIMING ->
      fst (read_timing_mode w) = Return (PyStr "AUTO"))
  /\ (Moench.get (device w) Moench.timing = VTimingMode TRIGGER_EXPOSURE ->
      fst (read_timing_mode w) = Return (PyStr "EXT"))
  /\ fst ((write_timing_mode (PyStr "AUTO") ;;; read_timing_mode) w)
     = Return (PyStr "AUTO")
  /\ fst ((write_timing_mode (PyStr "EXT") ;;; read_timing_mode) w)
     = Return (PyStr "EXT").
Proof.
  repeat split.
  - intros H. unfold read_timing_mode, bind, getattr. cbn [fst snd].
    now rewrite H.
  - intros H. unfold read_timing_mode, bind, getattr.
    rewrite H. cbn [eq_timingMode timingMode_eqb]. cbn [device called].
    now rewrite H.
Qed.

(** C10: when [device.timing] is neither [AUTO_TIMING] nor
    [TRIGGER_EXPOSURE], [read_timing_mode] returns None and logs an
    informational message; whatever the detector's timing,
    [write_timing_mode] does nothing at all for a string that is neither
    "auto" nor "ext" once lowered, and only logs an informational message
    for a value that is not a string. *)
Theorem timing_mode_partial (w : World) (s : string) (value : pyval) :
  (Moench.get (device w) Moench.timing <> VTimingMode AUTO_TIMING ->
   Moench.get (device w) Moench.timing <> VTimingMode TRIGGER_EXPOSURE ->
   read_timing_mode w
   = (Return PyNone,
      logged INFO "The timing mode is not assigned correctly."
        (called (Ev_get Moench.timing) (called (Ev_get Moench.timing) w))))
  /\ (lower s <> "auto" -> lower s <> "ext" ->
      write_timing_mode (PyStr s) w = (Return tt, w))
  /\ (type_is_str value = false ->
      write_timing_mode value w
      = (Return tt,
         logged INFO ("Timing mode should be " ++ dquote ++ "AUTO/EXT" ++ dquote ++ " string") w)).
Proof.
  split; [intros HA HT | split; [intros Hauto Hext | intros Hty]].
  - assert (EA : eq_timingMode (Moench.get (device w) Moench.timing) AUTO_TIMING = false).
    { destruct (Moench.get (device w) Moench.timing) as [| | | | | |t| | | |] eqn:E;
        try reflexivity.
      destruct t; try reflexivity. exfalso. exact (HA eq_refl). }
    assert (ET : eq_timingMode (Moench.get (device w) Moench.timing) TRIGGER_EXPOSURE = false).
    { destruct (Moench.get (device w) Moench.timing) as [| | | | | |t| | | |] eqn:E;
        try reflexivity.
      destruct t; try reflexivity. exfalso. exact (HT eq_refl). }
    unfold read_timing_mode, bind, getattr.
    rewrite EA. cbn [device called]. rewrite ET. reflexivity.
  - unfold write_timing_mode. cbn [type_is_str str_lower].
    apply String.eqb_neq in Hauto, Hext. now rewrite Hauto, Hext.
  - unfold write_timing_mode. now rewrite Hty.
Qed.

Lemma timing_mode_partial_gated :
  read_timing_mode fresh_world
  = (Return PyNone,
     logged INFO "The timing mode is not assigned correctly."
       (called (Ev_get Moench.timing) (called (Ev_get Moench.timing) fresh_world)))
  /\ write_timing_mode (PyStr "Gated") fresh_world = (Return tt, fresh_world)
  /\ write_timing_mode (PyInt 1) fresh_world
     = (Return tt,
        logged INFO ("Timing mode should be " ++ dquote ++ "AUTO/EXT" ++ dquote ++ " string")
          fresh_world).
Proof.
  destruct (timing_mode_partial fresh_world "Gated" (PyInt 1)) as (R & W & T).
  split; [apply R; discriminate|].
  split; [apply W; discriminate | apply T; reflexivity].
Defined.

(** ** High voltage *)

(** C6: the attribute is declared with the hard bounds 60 and 200 and the
    warning bounds 70 and 170; when the vendor setter raises a
    [RuntimeError], [write_highvoltage] returns normally, with the error
    line "not allowed highvoltage" added to the log and the detector as it
    was before the write. *)
Theorem write_highvoltage_runtime_error
    (set_highvoltage : pyval -> Moench.t -> outcome Moench.t)
    (value : pyval) (w : World) (msg : string) :
  set_highvoltage value (device w) = Raise (RuntimeError msg) ->
  (min_value highvoltage = Some 60%Z /\ max_value highvoltage = Some 200%Z /\
   min_warning highvoltage = Some 70%Z /\ max_warning highvoltage = Some 170%Z)
  /\ write_highvoltage set_highvoltage value w
     = (Return tt,
        logged ERROR "not allowed highvoltage" (called (Ev_set Moench.highvoltage) w))
  /\ device (snd (write_highvoltage set_highvoltage value w)) = device w
  /\ dev_state (snd (write_highvoltage set_highvoltage value w)) = dev_state w
  /\ stream (snd (write_highvoltage set_highvoltage value w))
     = (stream w ++ [(ERROR, "not allowed highvoltage")])%list.
Proof.
  intros H.
  assert (E : write_highvoltage set_highvoltage value w
     = (Return tt,
        logged ERROR "not allowed highvoltage" (called (Ev_set Moench.highvoltage) w))).
  { unfold write_highvoltage, try_except, set_device_highvoltage.
    rewrite H. reflexivity. }
  rewrite E. repeat split.
Qed.

Lemma write_highvoltage_500 :
  write_highvoltage strict_highvoltage (PyInt 500) fresh_world
  = (Return tt,
     logged ERROR "not allowed highvoltage"
       (called (Ev_set Moench.highvoltage) fresh_world)).
Proof.
  exact (proj1 (proj2 (write_highvoltage_runtime_error strict_highvoltage (PyInt 500)
                         fresh_world "invalid high voltage" eq_refl))).
Defined.

(** An exception that is not a [RuntimeError] is not handled by
    [write_highvoltage]: it reaches the caller. *)
Lemma write_highvoltage_other_error
    (set_highvoltage : pyval -> Moench.t -> outcome Moench.t)
    (value : pyval) (w : World) (e : exn) :
  set_highvoltage value (device w) = Raise e ->
  isinstance_RuntimeError e = false ->
  write_highvoltage set_highvoltage value w
  = (Raise e, called (Ev_set Moench.highvoltage) w).
Proof.
  intros H N. unfold write_highvoltage, try_except, set_device_highvoltage.
  now rewrite H, N.
Qed.

(** ** Teardown *)

Lemma delete_device_calls (deactivate_pc : bool -> World -> outcome unit) (w : World) :
  calls_made (delete_device deactivate_pc) w = [Ev_deactivate_pc (VIRTUAL w)].
Proof.
  unfold calls_made, delete_device, try_except, bind, get_VIRTUAL, pc_util_deactivate_pc.
  destruct (deactivate_pc (VIRTUAL w) w) as [[]|e]; [|destruct (isinstance_Exception e)];
    simpl; apply skipn_length_app.
Qed.

(** C8 as amended: [delete_device] always calls [deactivate_pc] of the
    computer-setup helper, once, with [self.VIRTUAL].  When that call
    raises an instance of [Exception], the command returns normally and
    the log receives the request to kill the process by hand.  When it
    raises an exception that is not an instance of [Exception]
    ([KeyboardInterrupt], [SystemExit]), the handler does not apply: the
    exception reaches the caller and nothing is logged. *)
Theorem delete_device_catches
    (deactivate_pc : bool -> World -> outcome unit) (w : World) :
  calls_made (delete_device deactivate_pc) w = [Ev_deactivate_pc (VIRTUAL w)]
  /\ (forall e : exn,
        deactivate_pc (VIRTUAL w) w = Raise e ->
        isinstance_Exception e = true ->
        delete_device deactivate_pc w
        = (Return tt,
           logged INFO "Unable to kill slsReceiver or zmq socket. Please kill it manually."
             (called (Ev_deactivate_pc (VIRTUAL w)) w)))
  /\ (forall e : exn,
        deactivate_pc (VIRTUAL w) w = Raise e ->
        isinstance_Exception e = false ->
        delete_device deactivate_pc w
        = (Raise e, called (Ev_deactivate_pc (VIRTUAL w)) w)).
Proof.
  split; [apply delete_device_calls|].
  split; intros e H C;
    unfold delete_device, try_except, bind, get_VIRTUAL, pc_util_deactivate_pc;
    now rewrite H, C.
Qed.

Lemma delete_device_no_process :
  calls_made (delete_device failing_deactivate_pc) fresh_world = [Ev_deactivate_pc false]
  /\ delete_device failing_deactivate_pc fresh_world
     = (Return tt,
        logged INFO "Unable to kill slsReceiver or zmq socket. Please kill it manually."
          (called (Ev_deactivate_pc false) fresh_world)).
Proof.
  destruct (delete_device_catches failing_deactivate_pc fresh_world) as (C & H & _).
  split; [exact C|].
  exact (H (OtherException "ProcessLookupError" "no such process") eq_refl eq_refl).
Defined.

(** C8 as stated fails for an exception outside [Exception]: when the
    teardown is interrupted from the keyboard, [delete_device] does not
    return normally; the [KeyboardInterrupt] reaches the caller and no
    message is logged. *)
Lemma delete_device_keyboard_interrupt :
  fst (delete_device (always (always (Raise KeyboardInterrupt))) fresh_world)
  = Raise KeyboardInterrupt
  /\ fst (delete_device (always (always (Raise KeyboardInterrupt))) fresh_world)
     <> Return tt
  /\ stream (snd (delete_device (always (always (Raise KeyboardInterrupt))) fresh_world))
     = stream fresh_world.
Proof.
  split; [reflexivity|]. split; [discriminate | reflexivity].
Qed.

(** When the teardown succeeds the command logs that the processes were
    killed. *)
Lemma delete_device_success
    (deactivate_pc : bool -> World -> outcome unit) (w : World) :
  deactivate_pc (VIRTUAL w) w = Return tt ->
  delete_device deactivate_pc w
  = (Return tt,
     logged INFO "SlsReceiver or zmq socket processes were killed."
       (called (Ev_deactivate_pc (VIRTUAL w)) w)).
Proof.
  intros H.
  unfold delete_device, try_except, bind, get_VIRTUAL, pc_util_deactivate_pc.
  now rewrite H.
Qed.

(** ** The virtual flag *)

Lemma keeps_ret {A} (a : A) : keeps_VIRTUAL (ret a).
Proof. intros w. reflexivity. Qed.

Lemma keeps_raise {A} (e : exn) : keeps_VIRTUAL (@raise A e).
Proof. intros w. reflexivity. Qed.

Lemma keeps_bind {A B} (m : M A) (k : A -> M B) :
  keeps_VIRTUAL m -> (forall a, keeps_VIRTUAL (k a)) -> keeps_VIRTUAL (bind m k).
Proof.
  intros Hm Hk w. unfold bind. specialize (Hm w).
  destruct (m w) as [[a | e] w']; simpl in *; [|assumption].
  now rewrite Hk.
Qed.

Lemma keeps_try_except {A} (m : M A) (c : exn -> bool) (h : exn -> M A) :
  keeps_VIRTUAL m -> (forall e, keeps_VIRTUAL (h e)) -> keeps_VIRTUAL (try_except m c h).
Proof.
  intros Hm Hh w. unfold try_except. specialize (Hm w).
  destruct (m w) as [[a | e] w']; simpl in *; [assumption|].
  destruct (c e); simpl; [|assumption]. now rewrite Hh.
Qed.

Lemma keeps_info_stream msg : keeps_VIRTUAL (info_stream msg).
Proof. intros w. reflexivity. Qed.

Lemma keeps_error_stream msg : keeps_VIRTUAL (error_stream msg).
Proof. intros w. reflexivity. Qed.

Lemma keeps_setattr p v : keeps_VIRTUAL (setattr p v).
Proof. intros w. reflexivity. Qed.

Lemma keeps_getattr p : keeps_VIRTUAL (getattr p).
Proof. intros w. reflexivity. Qed.

Lemma keeps_IpAddr value : keeps_VIRTUAL (IpAddr value).
Proof. destruct value; intros w; reflexivity. Qed.

Lemma keeps_set_device_highvoltage set_highvoltage value :
  keeps_VIRTUAL (set_device_highvoltage set_highvoltage value).
Proof.
  intros w. unfold set_device_highvoltage.
  destruct (set_highvoltage value (device w)); reflexivity.
Qed.

Create HintDb frame.
#[local] Hint Resolve keeps_ret keeps_raise keeps_info_stream keeps_error_stream
  keeps_setattr keeps_getattr keeps_IpAddr keeps_set_device_highvoltage : frame.

Ltac frame :=
  repeat first
    [ apply keeps_bind; [|intros ?]
    | apply keeps_try_except; [|intros ?]
    | solve [auto with frame]
    | match goal with
      | |- keeps_VIRTUAL (if ?b then _ else _) => destruct b
      | |- keeps_VIRTUAL (match ?v with _ => _ end) => destruct v
      end ].

Lemma write_attribute_keeps_VIRTUAL set_highvoltage a value :
  keeps_VIRTUAL (write_attribute set_highvoltage a value).
Proof.
  destruct a; cbn [write_attribute];
    unfold write_exposure, write_timing_mode, write_triggers, write_filename,
      write_filepath, write_frames, write_filewrite, write_highvoltage,
      write_period, write_samples, write_settings, write_zmqip, write_zmqport,
      write_rx_discardpolicy, write_rx_missingpackets, write_rx_hostname,
      write_rx_tcpport, write_rx_status, write_rx_zmqstream, write_rx_version,
      write_firmware_version, re.match_, getitem, PosixPath;
    frame.
Qed.

Lemma serve_writes_keeps_VIRTUAL set_highvoltage reqs : forall w,
  VIRTUAL (serve_writes set_highvoltage reqs w) = VIRTUAL w.
Proof.
  induction reqs as [|[a value] reqs IH]; intros w; simpl; [reflexivity|].
  rewrite IH. apply write_attribute_keeps_VIRTUAL.
Qed.

Lemma existsb_virtual (argv : list string) :
  existsb (String.eqb "--virtual") argv = true <-> In "--virtual" argv.
Proof.
  rewrite existsb_exists. split.
  - intros (x & Hx & E). apply String.eqb_eq in E. now subst.
  - intros H. exists "--virtual". split; [assumption | reflexivity].
Qed.

Ltac unfold_world :=
  cbn [device VIRTUAL dev_state stream calls fst snd
       assigned logged called with_dev_state with_VIRTUAL with_device];
  rewrite <- ?app_assoc; cbn [app].

Ltac no_such_call :=
  let b := fresh "b" in
  let H := fresh "H" in
  intros b H; simpl in H;
  repeat (destruct H as [H | H];
          [first [discriminate H | injection H as H; now symmetry] |]);
  contradiction.

Ltac init_device_case :=
  unfold_world;
  match goal with
  | Cwi : calls _ = calls _, Swi : stream _ = stream _, Vwi : VIRTUAL _ = _ |- _ =>
      rewrite ?Cwi, ?Swi, ?Vwi, skipn_length_app
  end;
  split; [reflexivity|]; split;
  [ eexists; split; [reflexivity|]; split; no_such_call
  | first [ discriminate
          | intros _; split; [reflexivity|]; apply in_or_app; right; left; reflexivity ] ].

(** What [init_device] leaves behind, whatever the collaborators answer:
    the flag; the calls, of which the first is [init_pc] with the flag, no
    other is [init_pc], and every [deactivate_pc] carries the flag; the
    fault state with its message when [init_pc] answered false. *)
Lemma init_device_world init_pc deactivate_pc device_status argv w :
  let virtual := existsb (String.eqb "--virtual") argv in
  let m := init_device init_pc deactivate_pc device_status argv in
  VIRTUAL (snd (m w)) = virtual
  /\ (exists rest : list event,
        calls_made m w = Ev_init_pc virtual :: rest
        /\ (forall b, ~ In (Ev_init_pc b) rest)
        /\ (forall b, In (Ev_deactivate_pc b) rest -> b = virtual))
  /\ (init_pc virtual (with_dev_state INIT (with_VIRTUAL virtual w)) = Return false ->
      dev_state (snd (m w)) = FAULT
      /\ In (INFO, "Unable to start slsReceiver or zmq socket. Check firewall process and already running instances.")
            (stream (snd (m w)))).
Proof.
  intros virtual m. unfold calls_made. subst m.
  unfold init_device, bind, set_VIRTUAL, set_state, get_VIRTUAL, pc_util_init_pc.
  replace (if existsb (String.eqb "--virtual") argv then true else false)
    with virtual by (unfold virtual; now destruct (existsb _ argv)).
  set (wi := with_dev_state INIT (with_VIRTUAL virtual w)).
  change (VIRTUAL wi) with virtual.
  assert (Cwi : calls wi = calls w) by reflexivity.
  assert (Swi : stream wi = stream w) by reflexivity.
  assert (Vwi : VIRTUAL wi = virtual) by reflexivity.
  clearbody wi virtual.
  destruct (init_pc virtual wi) as [ok | e] eqn:Einit.
  2:{ unfold_world. rewrite Cwi, skipn_length_app.
      split; [assumption|]. split; [|discriminate].
      exists []. repeat split; intros b []. }
  unfold new_Moench, try_except, get_status, info_stream, delete_device, try_except,
    bind, get_VIRTUAL, pc_util_deactivate_pc, set_state, info_stream, ret.
  destruct ok; cbn [negb];
    match goal with |- context [device_status ?x] =>
      destruct (device_status x) as [s | [msg | | | | |]] end;
    cbn [isinstance_RuntimeError];
    try match goal with |- context [deactivate_pc ?v ?x] =>
      destruct (deactivate_pc v x) as [[] | e'];
        [|destruct (isinstance_Exception e')] end;
    init_device_case.
Qed.

(** C7: [init_device] calls [init_pc] once, with [virtual] true exactly
    when "--virtual" is among the launch arguments; [delete_device], run
    after any attribute writes served since, passes the same flag to
    [deactivate_pc]; and when [init_pc] has returned false the device ends
    in the FAULT state with the message in its log. *)
Theorem init_device_virtual_flag
    (init_pc : bool -> World -> outcome bool)
    (deactivate_pc : bool -> World -> outcome unit)
    (device_status : World -> outcome string)
    (set_highvoltage : pyval -> Moench.t -> outcome Moench.t)
    (argv : list string) (reqs : list (Attr.name * pyval)) (w : World) :
  let virtual := existsb (String.eqb "--virtual") argv in
  let m := init_device init_pc deactivate_pc device_status argv in
  (forall b, In (Ev_init_pc b) (calls_made m w) <-> b = virtual)
  /\ (exists rest : list event,
        calls_made m w = Ev_init_pc virtual :: rest
        /\ forall b, ~ In (Ev_init_pc b) rest)
  /\ (In (Ev_init_pc true) (calls_made m w) <-> In "--virtual" argv)
  /\ calls_made (delete_device deactivate_pc)
       (serve_writes set_highvoltage reqs (snd (m w)))
     = [Ev_deactivate_pc virtual]
  /\ (forall b, In (Ev_deactivate_pc b) (calls_made m w) -> b = virtual)
  /\ (init_pc virtual (with_dev_state INIT (with_VIRTUAL virtual w)) = Return false ->
      dev_state (snd (m w)) = FAULT
      /\ In (INFO, "Unable to start slsReceiver or zmq socket. Check firewall process and already running instances.")
            (stream (snd (m w)))).
Proof.
  intros virtual m.
  destruct (init_device_world init_pc deactivate_pc device_status argv w)
    as (HV & (rest & Hcalls & Hinit & Hdeact) & Hfault).
  fold virtual in HV, Hcalls, Hdeact, Hfault. fold m in HV, Hcalls, Hfault.
  assert (A : forall b, In (Ev_init_pc b) (calls_made m w) <-> b = virtual).
  { intros b. rewrite Hcalls. simpl. split.
    - intros [E | I]; [now injection E | now apply Hinit in I].
    - intros ->. now left. }
  split; [exact A|]. split; [now exists rest|]. split; [|split; [|split]].
  - rewrite A. unfold virtual. rewrite <- existsb_virtual. split; congruence.
  - rewrite delete_device_calls, serve_writes_keeps_VIRTUAL. now rewrite HV.
  - intros b. rewrite Hcalls. simpl. intros [E | I]; [discriminate | now apply Hdeact].
  - exact Hfault.
Qed.

Lemma init_device_virtual_refused :
  let argv := ["MoenchDetectorControl"; "moench"; "--virtual"] in
  let m := init_device refusing_init_pc failing_deactivate_pc idle_status argv in
  In (Ev_init_pc true) (calls_made m fresh_world)
  /\ calls_made (delete_device failing_deactivate_pc)
       (serve_writes strict_highvoltage [(Attr.zmqip, PyStr "10.0.0.1")] (snd (m fresh_world)))
     = [Ev_deactivate_pc true]
  /\ dev_state (snd (m fresh_world)) = FAULT.
Proof.
  intros argv m.
  pose proof (init_device_virtual_flag refusing_init_pc failing_deactivate_pc idle_status
                strict_highvoltage argv [(Attr.zmqip, PyStr "10.0.0.1")] fresh_world)
    as (_ & _ & H1 & H2 & _ & H3).
  split; [apply H1; simpl; auto|]. split; [exact H2|].
  exact (proj1 (H3 eq_refl)).
Defined.

(** * Further properties of the methods *)

(** ** The shape of an accepted zmq ip *)

Lemma string_length_app (a b : string) :
  String.length (a ++ b) = String.length a + String.length b.
Proof. induction a as [|c a IH]; simpl; [reflexivity | now rewrite IH]. Qed.

Lemma count_char_app c (a b : string) :
  count_char c (a ++ b) = count_char c a + count_char c b.
Proof. induction a as [|x a IH]; simpl; [reflexivity | rewrite IH; lia]. Qed.

Lemma digit_group_shape (g : string) :
  digit_group g = true ->
  1 <= String.length g <= 3 /\ all_chars zmqip_char g = true /\ count_char "." g = 0.
Proof.
  unfold digit_group. rewrite !andb_true_iff, !Nat.leb_le.
  intros [L D]. split; [exact L|]. clear L.
  induction g as [|c g IH]; cbn [all_chars count_char] in *; [split; reflexivity|].
  apply andb_true_iff in D as [Dc Dg]. destruct (IH Dg) as [IH1 IH2].
  unfold zmqip_char at 1. rewrite Dc, IH1, IH2. split; [reflexivity|].
  destruct (Ascii.eqb_spec "." c) as [<- | _]; [discriminate Dc | reflexivity].
Qed.

Lemma zmqip_pattern_shape (s : string) :
  re.sre_match zmqip_pattern 0 s = true ->
  7 <= String.length s <= 16 /\ all_chars zmqip_char s = true /\ count_char "." s = 3.
Proof.
  intros H. apply zmqip_pattern_true in H
    as (g1 & g2 & g3 & g4 & tail & G1 & G2 & G3 & G4 & T & ->).
  apply digit_group_shape in G1 as (L1 & A1 & C1), G2 as (L2 & A2 & C2),
    G3 as (L3 & A3 & C3), G4 as (L4 & A4 & C4).
  rewrite !string_length_app, !all_chars_app, !count_char_app.
  rewrite A1, A2, A3, A4, C1, C2, C3, C4.
  destruct T as [-> | ->]; simpl; repeat split; lia.
Qed.

(** A string that is shorter than 7 or longer than 16 characters, that
    holds a character other than a digit, a dot or a newline, or that does
    not hold exactly three dots is refused by [write_zmqip]: the error line
    is logged and nothing else happens. *)
Theorem write_zmqip_rejects_out_of_shape (s : string) (w : World) :
  String.length s < 7 \/ 16 < String.length s \/
  all_chars zmqip_char s = false \/ count_char "." s <> 3 ->
  write_zmqip (PyStr s) w = (Return tt, logged ERROR "not valid ip address" w).
Proof.
  intros H. apply write_zmqip_unmatched.
  destruct (re.sre_match zmqip_pattern 0 s) eqn:E; [|reflexivity].
  apply zmqip_pattern_shape in E as (L & A & C). exfalso.
  destruct H as [H | [H | [H | H]]]; try lia; congruence.
Qed.

Lemma write_zmqip_rejects_hostname :
  write_zmqip (PyStr "localhost") fresh_world
  = (Return tt, logged ERROR "not valid ip address" fresh_world).
Proof.
  apply (write_zmqip_rejects_out_of_shape "localhost" fresh_world).
  right. right. left. reflexivity.
Defined.

(** ** Values that are not strings *)

(** A value that is not a [str]: [write_zmqip] raises [TypeError] out of
    [re.match] before anything is logged or called; [write_settings] and
    [write_rx_discardpolicy] ignore it without a trace. *)
Theorem writers_on_non_str (value : pyval) (w : World) :
  type_is_str value = false ->
  (exists msg, write_zmqip value w = (Raise (TypeError msg), w))
  /\ write_settings value w = (Return tt, w)
  /\ write_rx_discardpolicy value w = (Return tt, w).
Proof.
  intros H. destruct value; try discriminate H;
    (split; [eexists; reflexivity | split; reflexivity]).
Qed.

Lemma writers_on_int :
  (exists msg, write_zmqip (PyInt 5) fresh_world = (Raise (TypeError msg), fresh_world))
  /\ write_settings (PyInt 5) fresh_world = (Return tt, fresh_world)
  /\ write_rx_discardpolicy (PyInt 5) fresh_world = (Return tt, fresh_world).
Proof.
  exact (writers_on_non_str (PyInt 5) fresh_world eq_refl).
Defined.

(** ** Timing mode, any case *)

(** The timing mode is matched without regard to case: a string whose
    lower-case form is "auto" stores [AUTO_TIMING], one whose lower-case
    form is "ext" stores [TRIGGER_EXPOSURE], and a read after the write
    gives the upper-case name "AUTO" or "EXT", not the string written. *)
Theorem write_timing_mode_any_case (s1 s2 : string) (w : World) :
  lower s1 = "auto" -> lower s2 = "ext" ->
  write_timing_mode (PyStr s1) w
  = (Return tt, assigned Moench.timing (VTimingMode AUTO_TIMING)
                  (logged INFO "Setting auto timing mode" w))
  /\ write_timing_mode (PyStr s2) w
     = (Return tt, assigned Moench.timing (VTimingMode TRIGGER_EXPOSURE)
                     (logged INFO "Setting external timing mode" w))
  /\ fst ((write_timing_mode (PyStr s1) ;;; read_timing_mode) w) = Return (PyStr "AUTO")
  /\ fst ((write_timing_mode (PyStr s2) ;;; read_timing_mode) w) = Return (PyStr "EXT").
Proof.
  intros H1 H2.
  assert (E1 : write_timing_mode (PyStr s1) w
     = (Return tt, assigned Moench.timing (VTimingMode AUTO_TIMING)
                     (logged INFO "Setting auto timing mode" w))).
  { unfold write_timing_mode. cbn [type_is_str str_lower]. rewrite H1. reflexivity. }
  assert (E2 : write_timing_mode (PyStr s2) w
     = (Return tt, assigned Moench.timing (VTimingMode TRIGGER_EXPOSURE)
                     (logged INFO "Setting external timing mode" w))).
  { unfold write_timing_mode. cbn [type_is_str str_lower]. rewrite H2. reflexivity. }
  split; [exact E1|]. split; [exact E2|].
  unfold bind. rewrite E1, E2. split; reflexivity.
Qed.

Lemma write_timing_mode_mixed_case :
  fst ((write_timing_mode (PyStr "Auto") ;;; read_timing_mode) fresh_world)
  = Return (PyStr "AUTO")
  /\ fst ((write_timing_mode (PyStr "eXt") ;;; read_timing_mode) fresh_world)
     = Return (PyStr "EXT").
Proof.
  exact (proj2 (proj2 (write_timing_mode_any_case "Auto" "eXt" fresh_world
                         eq_refl eq_refl))).
Defined.

Lemma eq_timingMode_true (v : pyval) (t : timingMode) :
  eq_timingMode v t = true <-> v = VTimingMode t.
Proof.
  split.
  - destruct v as [| | | | | |t'| | | |]; simpl; try discriminate.
    destruct t', t; simpl; try discriminate; try reflexivity.
    intros H. apply Nat.eqb_eq in H. now subst.
  - intros ->. destruct t; simpl; try reflexivity. apply Nat.eqb_refl.
Qed.

(** [read_timing_mode] gives "AUTO" exactly when the detector is in
    [AUTO_TIMING], "EXT" exactly when it is in [TRIGGER_EXPOSURE] and None
    exactly when it is in neither; it never raises, and it leaves the
    detector and the Tango state as they were. *)
Theorem read_timing_mode_exact (w : World) :
  let t := Moench.get (device w) Moench.timing in
  (fst (read_timing_mode w) = Return (PyStr "AUTO") <-> t = VTimingMode AUTO_TIMING)
  /\ (fst (read_timing_mode w) = Return (PyStr "EXT") <-> t = VTimingMode TRIGGER_EXPOSURE)
  /\ (fst (read_timing_mode w) = Return PyNone
      <-> t <> VTimingMode AUTO_TIMING /\ t <> VTimingMode TRIGGER_EXPOSURE)
  /\ device (snd (read_timing_mode w)) = device w
  /\ dev_state (snd (read_timing_mode w)) = dev_state w.
Proof.
  intros t. subst t.
  remember (Moench.get (device w) Moench.timing) as t eqn:Et.
  assert (R : read_timing_mode w
              = if eq_timingMode t AUTO_TIMING
                then (Return (PyStr "AUTO"), called (Ev_get Moench.timing) w)
                else if eq_timingMode t TRIGGER_EXPOSURE
                then (Return (PyStr "EXT"),
                      called (Ev_get Moench.timing) (called (Ev_get Moench.timing) w))
                else (Return PyNone,
                      logged INFO "The timing mode is not assigned correctly."
                        (called (Ev_get Moench.timing) (called (Ev_get Moench.timing) w)))).
  { subst t. unfold read_timing_mode, bind, getattr.
    destruct (eq_timingMode (Moench.get (device w) Moench.timing) AUTO_TIMING);
      [reflexivity|].
    cbn [device called].
    destruct (eq_timingMode (Moench.get (device w) Moench.timing) TRIGGER_EXPOSURE);
      reflexivity. }
  rewrite R. clear R Et.
  destruct (eq_timingMode t AUTO_TIMING) eqn:EA.
  - apply eq_timingMode_true in EA. subst t. cbn [fst snd device dev_state called].
    intuition (try discriminate; try congruence).
  - assert (NA : t <> VTimingMode AUTO_TIMING).
    { intros H. apply eq_timingMode_true in H. congruence. }
    destruct (eq_timingMode t TRIGGER_EXPOSURE) eqn:ET.
    + apply eq_timingMode_true in ET. subst t. cbn [fst snd device dev_state called].
      intuition (try discriminate; try congruence).
    + assert (NT : t <> VTimingMode TRIGGER_EXPOSURE).
      { intros H. apply eq_timingMode_true in H. congruence. }
      cbn [fst snd device dev_state called logged].
      intuition (try discriminate; try congruence).
Qed.

(** ** High voltage and file path: what the error handlers let through *)

(** Whatever the vendor setter does, a [RuntimeError] never leaves
    [write_highvoltage] and the writer never changes the Tango state; a
    value the vendor stores is stored with nothing logged, and the error
    line is logged only when the vendor setter raised. *)
Theorem write_highvoltage_outcomes
    (set_highvoltage : pyval -> Moench.t -> outcome Moench.t)
    (value : pyval) (w : World) :
  (forall msg, fst (write_highvoltage set_highvoltage value w) <> Raise (RuntimeError msg))
  /\ (forall d, set_highvoltage value (device w) = Return d ->
        write_highvoltage set_highvoltage value w
        = (Return tt, with_device d (called (Ev_set Moench.highvoltage) w)))
  /\ (stream (snd (write_highvoltage set_highvoltage value w)) <> stream w ->
      exists e, set_highvoltage value (device w) = Raise e)
  /\ dev_state (snd (write_highvoltage set_highvoltage value w)) = dev_state w.
Proof.
  unfold write_highvoltage, try_except, set_device_highvoltage.
  destruct (set_highvoltage value (device w)) as [d | e].
  - split; [discriminate|]. split; [|split; [|reflexivity]].
    + intros d' H. now injection H as ->.
    + intros N. now elim N.
  - destruct e; cbn [isinstance_RuntimeError];
      (split; [intros m; cbn; discriminate|]);
      (split; [discriminate|]);
      (split; [|reflexivity]);
      intros _; eexists; reflexivity.
Qed.

(** The [TypeError] handler of [write_filepath]: a [str] is turned into a
    [PosixPath] and assigned to [fpath] with nothing logged; for a value
    that is neither a [str] nor a path the [TypeError] of [PosixPath] is
    caught: the writer returns normally, "not valid filepath" is logged at
    error level and the detector is not called. *)
Theorem write_filepath_handles_TypeError (value : pyval) (w : World) :
  (forall s, value = PyStr s ->
     write_filepath value w = (Return tt, assigned Moench.fpath (VPosixPath s) w))
  /\ ((forall s, value <> PyStr s) -> (forall p, value <> VPosixPath p) ->
      write_filepath value w = (Return tt, logged ERROR "not valid filepath" w)
      /\ calls_made (write_filepath value) w = []).
Proof.
  split.
  - intros s ->. reflexivity.
  - intros HS HP.
    assert (E : write_filepath value w
                = (Return tt, logged ERROR "not valid filepath" w)).
    { destruct value; try reflexivity; [now elim (HS s) | now elim (HP p)]. }
    split; [exact E|]. unfold calls_made. rewrite E. apply skipn_length_nil.
Qed.

(** ** Teardown and start-up, case by case *)

(** [delete_device] changes neither the detector, nor the Tango state, nor
    the virtual flag.  It returns normally with one more info line in the
    log, unless [deactivate_pc] raised an exception that is not an
    [Exception], which then reaches the caller. *)
Theorem delete_device_footprint
    (deactivate_pc : bool -> World -> outcome unit) (w : World) :
  device (snd (delete_device deactivate_pc w)) = device w
  /\ dev_state (snd (delete_device deactivate_pc w)) = dev_state w
  /\ VIRTUAL (snd (delete_device deactivate_pc w)) = VIRTUAL w
  /\ (fst (delete_device deactivate_pc w) = Return tt ->
      exists msg, stream (snd (delete_device deactivate_pc w))
                  = (stream w ++ [(INFO, msg)])%list)
  /\ (forall e, fst (delete_device deactivate_pc w) = Raise e ->
      isinstance_Exception e = false /\ deactivate_pc (VIRTUAL w) w = Raise e).
Proof.
  unfold delete_device, try_except, bind, get_VIRTUAL, pc_util_deactivate_pc.
  destruct (deactivate_pc (VIRTUAL w) w) as [[] | e] eqn:E;
    [|destruct (isinstance_Exception e) eqn:C];
    cbn [fst snd info_stream device dev_state VIRTUAL stream logged called];
    (split; [reflexivity|]); (split; [reflexivity|]); (split; [reflexivity|]); split;
    try discriminate; try (intros _; eexists; reflexivity).
  intros e' H. injection H as <-. now split.
Qed.

Lemma delete_device_world
    (deactivate_pc : bool -> World -> outcome unit) (w : World) :
  exists o l,
    delete_device deactivate_pc w
    = (o, mkWorld (device w) (VIRTUAL w) (dev_state w) (stream w ++ l)%list
            (calls w ++ [Ev_deactivate_pc (VIRTUAL w)])%list)
    /\ (forall e, o = Raise e ->
        isinstance_Exception e = false /\ deactivate_pc (VIRTUAL w) w = Raise e).
Proof.
  unfold delete_device, try_except, bind, get_VIRTUAL, pc_util_deactivate_pc.
  destruct (deactivate_pc (VIRTUAL w) w) as [[] | e] eqn:E;
    [|destruct (isinstance_Exception e) eqn:C].
  - eexists _, [_]. split; [reflexivity | discriminate].
  - eexists _, [_]. split; [reflexivity | discriminate].
  - eexists _, []. rewrite app_nil_r. split; [reflexivity|].
    intros e' I. now injection I as <-.
Qed.

(** Nothing keeps the teardown from running again: two [delete_device]
    commands in a row call [deactivate_pc] twice, with the same flag. *)
Theorem delete_device_twice
    (deactivate_pc : bool -> World -> outcome unit) (w : World) :
  (forall e, deactivate_pc (VIRTUAL w) w = Raise e -> isinstance_Exception e = true) ->
  calls_made (delete_device deactivate_pc ;;; delete_device deactivate_pc) w
  = [Ev_deactivate_pc (VIRTUAL w); Ev_deactivate_pc (VIRTUAL w)].
Proof.
  intros H. unfold calls_made, bind.
  destruct (delete_device_world deactivate_pc w) as (o1 & l1 & E1 & R1).
  rewrite E1. destruct o1 as [[] | e].
  - match goal with |- context [delete_device deactivate_pc ?x] =>
      destruct (delete_device_world deactivate_pc x) as (o2 & l2 & E2 & _) end.
    rewrite E2. cbn [snd calls VIRTUAL].
    rewrite <- app_assoc. apply skipn_length_app.
  - destruct (R1 e eq_refl) as [N D]. rewrite (H e D) in N. discriminate N.
Qed.

Lemma delete_device_twice_no_process :
  calls_made (delete_device failing_deactivate_pc ;;; delete_device failing_deactivate_pc)
    fresh_world
  = [Ev_deactivate_pc false; Ev_deactivate_pc false].
Proof.
  apply (delete_device_twice failing_deactivate_pc fresh_world).
  intros e H. injection H as <-. reflexivity.
Defined.

Lemma world_eq (a b : World) :
  device a = device b -> VIRTUAL a = VIRTUAL b -> dev_state a = dev_state b ->
  stream a = stream b -> calls a = calls b -> a = b.
Proof. destruct a, b; simpl; intros; subst; reflexivity. Qed.

Lemma virtual_flag_if (argv : list string) :
  (if existsb (String.eqb "--virtual") argv then true else false)
  = existsb (String.eqb "--virtual") argv.
Proof. now destruct (existsb _ argv). Qed.

Lemma init_device_reached_world
    (init_pc : bool -> World -> outcome bool)
    (deactivate_pc : bool -> World -> outcome unit)
    (device_status : World -> outcome string)
    (argv : list string) (w : World) (ok : bool) (st : string) :
  let virtual := existsb (String.eqb "--virtual") argv in
  (forall w', init_pc virtual w' = Return ok) ->
  (forall w', device_status w' = Return st) ->
  init_device init_pc deactivate_pc device_status argv w
  = (Return tt,
     mkWorld (device w) virtual (if ok then INIT else FAULT)
       (stream w
        ++ (if ok then []
            else [(INFO, "Unable to start slsReceiver or zmq socket. Check firewall process and already running instances.")])
        ++ [(INFO, ("Current device status: " ++ st)%string)])%list
       (calls w ++ [Ev_init_pc virtual; Ev_Moench; Ev_get Moench.status])%list).
Proof.
  intros virtual Hinit Hstatus.
  unfold init_device, bind, set_VIRTUAL, set_state, get_VIRTUAL, pc_util_init_pc.
  rewrite virtual_flag_if. fold virtual.
  cbn [VIRTUAL with_dev_state with_VIRTUAL]. rewrite Hinit.
  unfold new_Moench, try_except, get_status, bind.
  destruct ok; cbn [negb ret set_state info_stream]; rewrite Hstatus; cbn [negb ret set_state info_stream];
    (f_equal; apply world_eq;
     cbn [device VIRTUAL dev_state stream calls
          logged called with_dev_state with_VIRTUAL];
     rewrite <- ?app_assoc; reflexivity).
Qed.

(** Start-up with a detector that answers: when [init_pc] returns a truth
    value and the status read succeeds, [init_device] returns normally;
    the Tango state is left at INIT when [init_pc] succeeded (it is never
    set to ON) and at FAULT when it did not; in both cases the status line
    is the last line logged, so a failed [init_pc] does not stop the
    start-up; the teardown is not run and the detector is left as it
    was. *)
Theorem init_device_detector_reached
    (init_pc : bool -> World -> outcome bool)
    (deactivate_pc : bool -> World -> outcome unit)
    (device_status : World -> outcome string)
    (argv : list string) (w : World) (ok : bool) (st : string) :
  let virtual := existsb (String.eqb "--virtual") argv in
  let m := init_device init_pc deactivate_pc device_status argv in
  (forall w', init_pc virtual w' = Return ok) ->
  (forall w', device_status w' = Return st) ->
  fst (m w) = Return tt
  /\ dev_state (snd (m w)) = (if ok then INIT else FAULT)
  /\ stream (snd (m w))
     = (stream w
        ++ (if ok then []
            else [(INFO, "Unable to start slsReceiver or zmq socket. Check firewall process and already running instances.")])
        ++ [(INFO, ("Current device status: " ++ st)%string)])%list
  /\ (forall b, ~ In (Ev_deactivate_pc b) (calls_made m w))
  /\ device (snd (m w)) = device w.
Proof.
  intros virtual m Hinit Hstatus. subst m. unfold calls_made.
  rewrite (init_device_reached_world init_pc deactivate_pc device_status argv w ok st
             Hinit Hstatus).
  cbn [fst snd dev_state stream calls device]. fold virtual.
  split; [reflexivity|]. split; [reflexivity|]. split; [reflexivity|].
  split; [|reflexivity].
  intros b. rewrite skipn_length_app. simpl.
  intros [H | [H | [H | []]]]; discriminate H.
Qed.

Lemma init_device_detector_idle :
  let m := init_device (always (always (Return true))) failing_deactivate_pc idle_status
             ["MoenchDetectorControl"; "moench"] in
  fst (m fresh_world) = Return tt
  /\ dev_state (snd (m fresh_world)) = INIT
  /\ stream (snd (m fresh_world)) = [(INFO, "Current device status: runStatus.IDLE")].
Proof.
  intros m.
  destruct (init_device_detector_reached (always (always (Return true)))
              failing_deactivate_pc idle_status ["MoenchDetectorControl"; "moench"]
              fresh_world true "runStatus.IDLE" (fun _ => eq_refl) (fun _ => eq_refl))
    as (H1 & H2 & H3 & _).
  split; [exact H1|]. split; [exact H2 | exact H3].
Defined.

(** Start-up with a detector that cannot be reached: when reading the
    status raises a [RuntimeError], [init_device] does not pass it on.  It
    sets the FAULT state, logs the error text and runs the teardown, so the
    calls are [init_pc], [Moench()], the status read and [deactivate_pc]
    with the same flag, and the detector is left as it was. *)
Theorem init_device_detector_unreachable
    (init_pc : bool -> World -> outcome bool)
    (deactivate_pc : bool -> World -> outcome unit)
    (device_status : World -> outcome string)
    (argv : list string) (w : World) (ok : bool) (msg : string) :
  let virtual := existsb (String.eqb "--virtual") argv in
  let m := init_device init_pc deactivate_pc device_status argv in
  (forall w', init_pc virtual w' = Return ok) ->
  (forall w', device_status w' = Raise (RuntimeError msg)) ->
  (forall w' e, deactivate_pc virtual w' = Raise e -> isinstance_Exception e = true) ->
  fst (m w) = Return tt
  /\ dev_state (snd (m w)) = FAULT
  /\ calls_made m w
     = [Ev_init_pc virtual; Ev_Moench; Ev_get Moench.status; Ev_deactivate_pc virtual]
  /\ In (INFO, "Unable to establish connection with detector" ++ nl ++ msg)
        (stream (snd (m w)))
  /\ device (snd (m w)) = device w.
Proof.
  intros virtual m Hinit Hstatus Hdeact. subst m.
  unfold calls_made, init_device, bind, set_VIRTUAL, set_state, get_VIRTUAL, pc_util_init_pc.
  rewrite virtual_flag_if. fold virtual.
  cbn [VIRTUAL with_dev_state with_VIRTUAL]. rewrite Hinit.
  unfold new_Moench, try_except, get_status, bind.
  destruct ok; cbn [negb ret set_state info_stream]; rewrite !Hstatus;
    cbn [isinstance_RuntimeError exn_str];
    match goal with |- context [delete_device deactivate_pc ?x] =>
      destruct (delete_device_world deactivate_pc x) as (o & l & E & R); rewrite E
    end;
    cbn [fst snd device VIRTUAL dev_state stream calls
         logged called with_dev_state with_VIRTUAL] in *;
    (split; [|split; [reflexivity|split; [|split; [|reflexivity]]]]);
    try (destruct o as [[] | e]; [reflexivity|];
         destruct (R e eq_refl) as [N D]; rewrite (Hdeact _ _ D) in N; discriminate N);
    try (rewrite <- !app_assoc; apply skipn_length_app);
    apply in_or_app; left; apply in_or_app; right; left; reflexivity.
Qed.

Lemma init_device_detector_offline :
  let m := init_device (always (always (Return true))) failing_deactivate_pc
             (always (Raise (RuntimeError "shared memory missing")))
             ["MoenchDetectorControl"; "moench"; "--virtual"] in
  fst (m fresh_world) = Return tt
  /\ dev_state (snd (m fresh_world)) = FAULT
  /\ calls_made m fresh_world
     = [Ev_init_pc true; Ev_Moench; Ev_get Moench.status; Ev_deactivate_pc true].
Proof.
  intros m.
  pose proof (init_device_detector_unreachable (always (always (Return true))) failing_deactivate_pc
                (always (Raise (RuntimeError "shared memory missing")))
                ["MoenchDetectorControl"; "moench"; "--virtual"] fresh_world true
                "shared memory missing" (fun _ => eq_refl) (fun _ => eq_refl)
                (fun _ e H => f_equal (fun o => match o with
                                                 | Raise x => isinstance_Exception x
                                                 | Return _ => true
                                                 end) (eq_sym H)))
    as (H1 & H2 & H3 & _).
  repeat split; assumption.
Defined.

(** Start-up with a computer-setup helper that raises: the exception of
    [init_pc] reaches the caller of [init_device]; the flag and the INIT
    state are set, nothing is logged, and neither the [Moench] handle is
    built nor the detector read. *)
Theorem init_device_init_pc_raises
    (init_pc : bool -> World -> outcome bool)
    (deactivate_pc : bool -> World -> outcome unit)
    (device_status : World -> outcome string)
    (argv : list string) (w : World) (e : exn) :
  let virtual := existsb (String.eqb "--virtual") argv in
  (forall w', init_pc virtual w' = Raise e) ->
  init_device init_pc deactivate_pc device_status argv w
  = (Raise e,
     mkWorld (device w) virtual INIT (stream w) (calls w ++ [Ev_init_pc virtual])%list).
Proof.
  intros virtual Hinit.
  unfold init_device, bind, set_VIRTUAL, set_state, get_VIRTUAL, pc_util_init_pc.
  rewrite virtual_flag_if. fold virtual.
  cbn [VIRTUAL with_dev_state with_VIRTUAL]. rewrite Hinit. reflexivity.
Qed.

Lemma init_device_init_pc_crashes :
  init_device (always (always (Raise (OtherException "FileNotFoundError" "slsReceiver"))))
    failing_deactivate_pc idle_status ["MoenchDetectorControl"; "moench"] fresh_world
  = (Raise (OtherException "FileNotFoundError" "slsReceiver"),
     mkWorld (device fresh_world) false INIT [] [Ev_init_pc false]).
Proof.
  exact (init_device_init_pc_raises
           (always (always (Raise (OtherException "FileNotFoundError" "slsReceiver"))))
           failing_deactivate_pc idle_status ["MoenchDetectorControl"; "moench"]
           fresh_world _ (fun _ => eq_refl)).
Defined.

(** ** What attribute writes leave alone *)

Lemma untouched_ret {A} (a : A) : server_untouched (ret a).
Proof.
  intros w. cbn. repeat split; [exists [] | exists []]; now rewrite ?app_nil_r.
Qed.

Lemma untouched_raise {A} (e : exn) : server_untouched (@raise A e).
Proof.
  intros w. cbn. repeat split; [exists [] | exists []]; now rewrite ?app_nil_r.
Qed.

Lemma untouched_bind {A B} (m : M A) (k : A -> M B) :
  server_untouched m -> (forall a, server_untouched (k a)) ->
  server_untouched (bind m k).
Proof.
  intros Hm Hk w. unfold bind.
  destruct (Hm w) as (V & S & (l & L) & (evs & C & F)).
  destruct (m w) as [[a | e] w1]; cbn [snd] in *.
  - destruct (Hk a w1) as (V' & S' & (l' & L') & (evs' & C' & F')).
    rewrite V', S', L', C', V, S, L, C. repeat split.
    + exists (l ++ l')%list. now rewrite app_assoc.
    + exists (evs ++ evs')%list. rewrite app_assoc, forallb_app, F, F'. now split.
  - repeat split; eauto.
Qed.

Lemma untouched_try_except {A} (m : M A) (c : exn -> bool) (h : exn -> M A) :
  server_untouched m -> (forall e, server_untouched (h e)) ->
  server_untouched (try_except m c h).
Proof.
  intros Hm Hh w. unfold try_except.
  destruct (Hm w) as (V & S & (l & L) & (evs & C & F)).
  destruct (m w) as [[a | e] w1]; cbn [snd] in *; [repeat split; eauto|].
  destruct (c e); cbn [snd]; [|repeat split; eauto].
  destruct (Hh e w1) as (V' & S' & (l' & L') & (evs' & C' & F')).
  rewrite V', S', L', C', V, S, L, C. repeat split.
  - exists (l ++ l')%list. now rewrite app_assoc.
  - exists (evs ++ evs')%list. rewrite app_assoc, forallb_app, F, F'. now split.
Qed.

Lemma untouched_info_stream msg : server_untouched (info_stream msg).
Proof.
  intros w. cbn. repeat split; [now exists [(INFO, msg)] | exists []].
  now rewrite app_nil_r.
Qed.

Lemma untouched_error_stream msg : server_untouched (error_stream msg).
Proof.
  intros w. cbn. repeat split; [now exists [(ERROR, msg)] | exists []].
  now rewrite app_nil_r.
Qed.

Lemma untouched_setattr p v : server_untouched (setattr p v).
Proof.
  intros w. cbn. repeat split; [exists [] | now exists [Ev_set p]].
  now rewrite app_nil_r.
Qed.

Lemma untouched_getattr p : server_untouched (getattr p).
Proof.
  intros w. cbn. repeat split; [exists [] | now exists [Ev_get p]].
  now rewrite app_nil_r.
Qed.

Lemma untouched_IpAddr value : server_untouched (IpAddr value).
Proof.
  destruct value; try apply untouched_raise.
  intros w. cbn. repeat split; [exists [] | now exists [Ev_IpAddr s]].
  now rewrite app_nil_r.
Qed.

Lemma untouched_set_device_highvoltage set_highvoltage value :
  server_untouched (set_device_highvoltage set_highvoltage value).
Proof.
  intros w. unfold set_device_highvoltage.
  destruct (set_highvoltage value (device w)); cbn;
    (repeat split; [exists [] | now exists [Ev_set Moench.highvoltage]]);
    now rewrite app_nil_r.
Qed.

#[local] Hint Resolve untouched_ret untouched_raise untouched_info_stream
  untouched_error_stream untouched_setattr untouched_getattr untouched_IpAddr
  untouched_set_device_highvoltage : frame.

Ltac untouched :=
  repeat first
    [ apply untouched_bind; [|intros ?]
    | apply untouched_try_except; [|intros ?]
    | solve [auto with frame]
    | match goal with
      | |- server_untouched (if ?b then _ else _) => destruct b
      | |- server_untouched (match ?v with _ => _ end) => destruct v
      end ].

Ltac unfold_writers :=
  unfold write_exposure, write_timing_mode, write_triggers, write_filename,
    write_filepath, write_frames, write_filewrite, write_highvoltage,
    write_period, write_samples, write_settings, write_zmqip, write_zmqport,
    write_rx_discardpolicy, write_rx_missingpackets, write_rx_hostname,
    write_rx_tcpport, write_rx_status, write_rx_zmqstream, write_rx_version,
    write_firmware_version, re.match_, getitem, PosixPath.

Lemma write_attribute_untouched set_highvoltage a value :
  server_untouched (write_attribute set_highvoltage a value).
Proof.
  destruct a; cbn [write_attribute]; unfold_writers; untouched.
Qed.

(** No run of attribute writes, whatever the attributes and the values,
    changes the Tango state or the virtual flag, removes a line from the
    log, or calls anything but the detector: the computer-setup helper and
    the [Moench] constructor are never called by a writer. *)
Theorem serve_writes_server_untouched
    (set_highvoltage : pyval -> Moench.t -> outcome Moench.t)
    (reqs : list (Attr.name * pyval)) (w : World) :
  let w' := serve_writes set_highvoltage reqs w in
  VIRTUAL w' = VIRTUAL w
  /\ dev_state w' = dev_state w
  /\ (exists l, stream w' = (stream w ++ l)%list)
  /\ (exists evs, calls w' = (calls w ++ evs)%list /\ forallb detector_call evs = true).
Proof.
  revert w. induction reqs as [|[a value] reqs IH]; intros w; cbn [serve_writes].
  - repeat split; [exists [] | exists []]; now rewrite ?app_nil_r.
  - destruct (write_attribute_untouched set_highvoltage a value w)
      as (V & S & (l & L) & (evs & C & F)).
    destruct (IH (snd (write_attribute set_highvoltage a value w)))
      as (V' & S' & (l' & L') & (evs' & C' & F')).
    cbv zeta. rewrite V', S', L', C', V, S, L, C. repeat split.
    + exists (l ++ l')%list. now rewrite app_assoc.
    + exists (evs ++ evs')%list. rewrite app_assoc, forallb_app, F, F'. now split.
Qed.

Lemma only_ret {A} q (a : A) : touches_only q (ret a).
Proof. intros w p _. reflexivity. Qed.

Lemma only_raise {A} q (e : exn) : touches_only q (@raise A e).
Proof. intros w p _. reflexivity. Qed.

Lemma only_bind {A B} q (m : M A) (k : A -> M B) :
  touches_only q m -> (forall a, touches_only q (k a)) -> touches_only q (bind m k).
Proof.
  intros Hm Hk w p N. unfold bind. specialize (Hm w p N).
  destruct (m w) as [[a | e] w1]; cbn [snd] in *; [|assumption].
  now rewrite (Hk a w1 p N).
Qed.

Lemma only_try_except {A} q (m : M A) (c : exn -> bool) (h : exn -> M A) :
  touches_only q m -> (forall e, touches_only q (h e)) ->
  touches_only q (try_except m c h).
Proof.
  intros Hm Hh w p N. unfold try_except. specialize (Hm w p N).
  destruct (m w) as [[a | e] w1]; cbn [snd] in *; [assumption|].
  destruct (c e); cbn [snd]; [|assumption]. now rewrite (Hh e w1 p N).
Qed.

Lemma only_info_stream q msg : touches_only q (info_stream msg).
Proof. intros w p _. reflexivity. Qed.

Lemma only_error_stream q msg : touches_only q (error_stream msg).
Proof. intros w p _. reflexivity. Qed.

Lemma only_getattr q p : touches_only q (getattr p).
Proof. intros w p' _. reflexivity. Qed.

Lemma only_IpAddr q value : touches_only q (IpAddr value).
Proof. destruct value; intros w0 p0 _; reflexivity. Qed.

Lemma Moench_eqb_eq (p q : Moench.prop) : Moench.eqb p q = true -> p = q.
Proof. destruct p, q; cbv; congruence. Qed.

Lemma only_setattr q v : touches_only q (setattr q v).
Proof.
  intros w p N. cbn. unfold Moench.set.
  destruct (Moench.eqb p q) eqn:E; [|reflexivity].
  now apply Moench_eqb_eq in E.
Qed.

#[local] Hint Resolve only_ret only_raise only_info_stream only_error_stream
  only_getattr only_IpAddr only_setattr : frame.

Ltac touches :=
  repeat first
    [ apply only_bind; [|intros ?]
    | apply only_try_except; [|intros ?]
    | solve [auto with frame]
    | match goal with
      | |- touches_only _ (if ?b then _ else _) => destruct b
      | |- touches_only _ (match ?v with _ => _ end) => destruct v
      end ].

Lemma write_attribute_only set_highvoltage a value :
  a <> Attr.highvoltage ->
  touches_only (property_of a) (write_attribute set_highvoltage a value).
Proof.
  intros N. destruct a; try (now elim N);
    cbn [write_attribute property_of]; unfold_writers; touches.
Qed.

(** The writer of an attribute other than the high voltage changes no
    detector property but the one behind its attribute. *)
Theorem write_attribute_touches_only
    (set_highvoltage : pyval -> Moench.t -> outcome Moench.t)
    (a : Attr.name) (value : pyval) (w : World) (p : Moench.prop) :
  a <> Attr.highvoltage -> p <> property_of a ->
  Moench.get (device (snd (write_attribute set_highvoltage a value w))) p
  = Moench.get (device w) p.
Proof.
  intros Na Np. exact (write_attribute_only set_highvoltage a value Na w p Np).
Qed.

Lemma write_zmqip_keeps_hostname :
  Moench.get (device (snd (write_attribute strict_highvoltage Attr.zmqip
                             (PyStr "10.0.0.1") fresh_world))) Moench.rx_hostname
  = Moench.get (device fresh_world) Moench.rx_hostname.
Proof.
  apply (write_attribute_touches_only strict_highvoltage Attr.zmqip (PyStr "10.0.0.1")
           fresh_world Moench.rx_hostname); discriminate.
Defined.

(** ** Writes followed by reads *)

(** For each pass-through attribute a read after a write gives back the
    value written: the writer and the reader of the attribute name the same
    detector property. *)
Theorem passthrough_round_trip
    (py_str : pyval -> string)
    (set_highvoltage : pyval -> Moench.t -> outcome Moench.t)
    (a : Attr.name) (value : pyval) (w : World) :
  In a passthrough ->
  fst (read_attribute py_str a (snd (write_attribute set_highvoltage a value w)))
  = Return value.
Proof.
  intros H. destruct a; try reflexivity;
    exfalso; simpl in H; intuition discriminate.
Qed.

Lemma rx_tcpport_round_trip :
  fst (read_attribute (always EmptyString) Attr.rx_tcpport
         (snd (write_attribute strict_highvoltage Attr.rx_tcpport (PyInt 1954) fresh_world)))
  = Return (PyInt 1954).
Proof.
  apply (passthrough_round_trip (always EmptyString) strict_highvoltage
           Attr.rx_tcpport (PyInt 1954) fresh_world).
  simpl. auto 12.
Defined.

Lemma read_timing_mode_value (w : World) :
  fst (read_timing_mode w)
  = Return (if eq_timingMode (Moench.get (device w) Moench.timing) AUTO_TIMING
            then PyStr "AUTO"
            else if eq_timingMode (Moench.get (device w) Moench.timing) TRIGGER_EXPOSURE
            then PyStr "EXT" else PyNone).
Proof.
  unfold read_timing_mode, bind, getattr.
  destruct (eq_timingMode (Moench.get (device w) Moench.timing) AUTO_TIMING);
    [reflexivity|].
  cbn [device called].
  destruct (eq_timingMode (Moench.get (device w) Moench.timing) TRIGGER_EXPOSURE);
    reflexivity.
Qed.

Lemma read_attribute_depends (py_str : pyval -> string) (b : Attr.name) (w1 w2 : World) :
  device w1 (property_of b) = device w2 (property_of b) ->
  fst (read_attribute py_str b w1) = fst (read_attribute py_str b w2).
Proof.
  intros H. destruct b; cbn [read_attribute property_of] in *;
    try (rewrite !read_timing_mode_value; unfold Moench.get; now rewrite H);
    unfold read_exposure, read_triggers, read_filename, read_filepath, read_frames,
      read_filewrite, read_highvoltage, read_period, read_samples, read_settings,
      read_zmqip, read_zmqport, read_rx_discardpolicy, read_rx_missingpackets,
      read_rx_hostname, read_rx_tcpport, read_rx_status, read_rx_zmqstream,
      read_rx_version, read_firmware_version, bind, getattr, ret, Moench.get;
    cbn [fst snd]; now rewrite H.
Qed.

Lemma property_of_injective (a b : Attr.name) :
  property_of a = property_of b -> a = b.
Proof. destruct a, b; cbn; intros H; first [reflexivity | discriminate H]. Qed.

(** Writing one attribute does not change what a read of another attribute
    returns (the high voltage, whose setter is the vendor's, apart). *)
Theorem write_read_independent
    (py_str : pyval -> string)
    (set_highvoltage : pyval -> Moench.t -> outcome Moench.t)
    (a b : Attr.name) (value : pyval) (w : World) :
  a <> b -> a <> Attr.highvoltage ->
  fst (read_attribute py_str b (snd (write_attribute set_highvoltage a value w)))
  = fst (read_attribute py_str b w).
Proof.
  intros Nab Na. apply read_attribute_depends.
  apply (write_attribute_only set_highvoltage a value Na w).
  intros E. apply Nab. symmetry. now apply property_of_injective.
Qed.

Lemma write_settings_keeps_timing_mode :
  fst (read_attribute (always EmptyString) Attr.timing_mode
         (snd (write_attribute strict_highvoltage Attr.settings (PyStr "G4_LOWGAIN")
                 fresh_world)))
  = fst (read_attribute (always EmptyString) Attr.timing_mode fresh_world).
Proof.
  apply (write_read_independent (always EmptyString) strict_highvoltage
           Attr.settings Attr.timing_mode (PyStr "G4_LOWGAIN") fresh_world);
    discriminate.
Defined.

(** The two enum attributes do not read back what was written: after an
    accepted write of a discard-policy name, [read_rx_discardpolicy] returns
    the [frameDiscardPolicy] member itself, which is not a string; after an
    accepted write of a gain name, [read_settings] returns the vendor's
    [str()] of the [detectorSettings] member. *)
Theorem enum_attributes_read_back
    (py_str : pyval -> string)
    (policy gain : string) (n k : Z) (w : World) :
  In (policy, n) disard_dict -> In (gain, k) settings_dict ->
  fst (read_rx_discardpolicy (snd (write_rx_discardpolicy (PyStr policy) w)))
  = Return (frameDiscardPolicy n)
  /\ fst (read_rx_discardpolicy (snd (write_rx_discardpolicy (PyStr policy) w)))
     <> Return (PyStr policy)
  /\ fst (read_settings py_str (snd (write_settings (PyStr gain) w)))
     = Return (PyStr (py_str (detectorSettings k))).
Proof.
  intros HP HG. simpl in HP, HG.
  assert (P : fst (read_rx_discardpolicy (snd (write_rx_discardpolicy (PyStr policy) w)))
              = Return (frameDiscardPolicy n)).
  { repeat (destruct HP as [HP | HP]; [injection HP as <- <-; reflexivity|]).
    contradiction. }
  rewrite P. split; [reflexivity|]. split; [discriminate|].
  repeat (destruct HG as [HG | HG]; [injection HG as <- <-; reflexivity|]).
  contradiction.
Qed.

Lemma enum_attributes_read_back_example :
  fst (read_rx_discardpolicy (snd (write_rx_discardpolicy (PyStr "NO_DISCARD") fresh_world)))
  = Return (frameDiscardPolicy 0).
Proof.
  exact (proj1 (enum_attributes_read_back (always EmptyString) "NO_DISCARD" "G1_HIGHGAIN"
                  0 13 fresh_world (or_introl eq_refl) (or_introl eq_refl))).
Defined.
